(** * MemPro-mcp: the memory analyzer (analyzer.go, types.go)

    A shallow embedding of the analysis engine of the MemPro MCP server
    and the properties its specification states about it.

    Conventions of the embedding.
    - Go's [int] and [int64] are [Z]; the analyzer only compares and
      prints them, and counts with [++] below the length of a slice, so
      no operation of the analyzer wraps around.
    - Go's [float64] is Rocq's primitive binary64 [float]; comparisons,
      division and multiplication are the IEEE 754 operations of the
      kernel, and [float64(x)] of an integer rounds to nearest even.
    - Go's [string] is [string] (a sequence of bytes).
    - A nil-able pointer is an [option]; a slice is a [list]; the nil
      slice is [[]].
    - A run-time panic (index out of range) is the [Panic] result. *)

From Stdlib Require Import ZArith String Ascii List Bool Lia DecimalString.
From Stdlib Require Import Permutation Sorted.
From Stdlib Require Import Floats.
Import ListNotations.

Open Scope string_scope.
Open Scope Z_scope.

(** ** Library functions of Go used by the analyzer *)

Module Go.

(** The line feed of Go's string literals. *)
Definition nl : string := String (ascii_of_nat 10) EmptyString.

(** [strings.Contains(s, substr)]: [substr] occurs in [s] as a run of
    consecutive bytes; the empty string occurs in every string. *)
Fixpoint Contains (s substr : string) : bool :=
  if String.prefix substr s then true
  else match s with
       | EmptyString => false
       | String _ s' => Contains s' substr
       end.

(** The verb [%d] of [fmt.Sprintf] on an integer. *)
Definition fmt_d (z : Z) : string := NilZero.string_of_int (Z.to_int z).

(** The verb [%v] of [fmt.Sprintf] on a [bool]. *)
Definition fmt_v (b : bool) : string := if b then "true" else "false".

(** The conversion [float64(x)] of an integer: the nearest binary64
    value, ties to even. *)
Definition float64 (z : Z) : float :=
  SF2Prim (binary_normalize prec emax z 0 false).

(** [zeros n] is [n] characters '0'. *)
Fixpoint zeros (n : nat) : string :=
  match n with
  | O => ""
  | S n' => String "0" (zeros n')
  end.

(** The decimal digits of [z >= 0], padded with zeros on the left to at
    least [width] characters. *)
Definition digits_padded (width : nat) (z : Z) : string :=
  let s := NilZero.string_of_int (Z.to_int z) in
  zeros (width - String.length s) ++ s.

(** [round_scaled m e p] is the integer nearest to [m * 2^e * 10^p],
    ties to even: the digits [strconv.FormatFloat] keeps for a
    precision of [p] decimals. *)
Definition round_scaled (m : positive) (e : Z) (p : nat) : Z :=
  let num := Zpos m * 10 ^ Z.of_nat p in
  if 0 <=? e then num * 2 ^ e
  else
    let den := 2 ^ (- e) in
    let q := num / den in
    let r := num mod den in
    match 2 * r ?= den with
    | Lt => q
    | Gt => q + 1
    | Eq => if Z.even q then q else q + 1
    end.

(** The decimal rendering of the scaled integer [q] with [p] decimals. *)
Definition fixed_digits (q : Z) (p : nat) : string :=
  let scale := 10 ^ Z.of_nat p in
  fmt_d (q / scale) ++
  match p with
  | O => ""
  | _ => "." ++ digits_padded p (q mod scale)
  end.

Definition sign_prefix (negative : bool) : string :=
  if negative then "-" else "".

(** The verb [%.Nf] of [fmt.Sprintf] on a [float64], [p] being N. *)
Definition fmt_f (p : nat) (x : float) : string :=
  match Prim2SF x with
  | S754_nan => "NaN"
  | S754_infinity negative => if negative then "-Inf" else "+Inf"
  | S754_zero negative => sign_prefix negative ++ fixed_digits 0 p
  | S754_finite negative m e =>
      sign_prefix negative ++ fixed_digits (round_scaled m e p) p
  end.

(** A call either returns a value or panics. *)
Inductive result (A : Type) : Type :=
| Ok (a : A)
| Panic (msg : string).
Arguments Ok {A} a.
Arguments Panic {A} msg.

(** *** [sort.Slice]

    [sort.Slice(x, less)] sorts [x] in place by pattern-defeating
    quicksort, which on a range of at most twelve elements is the
    insertion sort below ([insertionSortLessFunc]):
<<
    for i := a + 1; i < b; i++ {
      for j := i; j > a && less(data[j], data[j-1]); j-- {
        data.Swap(j, j-1)
      }
    }
>>
    The theorems on the analyzer use of [Slice] only that its result is
    a permutation of its argument in which no element is [less] than
    its predecessor, the contract of [sort.Slice] at every length. *)

Section Sort.
Context {A : Type} (less : A -> A -> bool).

(** The inner loop: [x] moves left over every element it is [less]
    than; [sorted_rev] is the prefix already in order, last element
    first. *)
Fixpoint sink (x : A) (sorted_rev : list A) : list A :=
  match sorted_rev with
  | [] => [x]
  | y :: ys => if less x y then y :: sink x ys else x :: y :: ys
  end.

(** The outer loop, from the left. *)
Fixpoint insertionSort (sorted_rev todo : list A) : list A :=
  match todo with
  | [] => rev sorted_rev
  | x :: rest => insertionSort (sink x sorted_rev) rest
  end.

Definition Slice (x : list A) : list A := insertionSort [] x.
End Sort.

End Go.

Import Go.

(** ** The data model (types.go) *)

(** A call tree entry with allocation information. *)
#[warnings="-register-all"] Inductive CallTree : Type :=
  mkCallTree
    (CallTree_FunctionName : string)
    (CallTree_FileName : string)
    (CallTree_LineNumber : Z)
    (CallTree_AllocationCount : Z)
    (CallTree_TotalSize : Z)
    (CallTree_SelfSize : Z)
    (CallTree_InclusiveSize : Z)
    (CallTree_Children : list CallTree).

(** Function-level allocation statistics. *)
Record Function : Type := mkFunction {
  Function_FunctionName : string;
  Function_FileName : string;
  Function_LineNumber : Z;
  Function_AllocationCount : Z;
  Function_TotalSize : Z;
  Function_AverageSize : float;
  Function_MinSize : Z;
  Function_MaxSize : Z;
  Function_Percentage : float
}.

(** A memory leak with suspect information. *)
Record Leak : Type := mkLeak {
  Leak_FunctionName : string;
  Leak_FileName : string;
  Leak_LineNumber : Z;
  Leak_LeakSize : Z;
  Leak_LeakCount : Z;
  Leak_LeakScore : float;
  Leak_CallStack : string;
  Leak_IsSuspect : bool
}.

(** Memory page usage information. *)
Record PageView : Type := mkPageView {
  PageView_Address : Z;
  PageView_State : string;
  PageView_Type : string;
  PageView_Protection : Z;
  PageView_StackId : Z;
  PageView_Usage : Z;
  PageView_AllocationCount : Z;
  PageView_TotalSize : Z;
  PageView_FunctionName : string;
  PageView_CallStack : string
}.

(** Allocation type statistics. *)
Record AllocType : Type := mkAllocType {
  AllocType_TypeName : string;
  AllocType_AllocationCount : Z;
  AllocType_TotalSize : Z;
  AllocType_AverageSize : float;
  AllocType_MinSize : Z;
  AllocType_MaxSize : Z;
  AllocType_Percentage : float;
  AllocType_MostCommonFunction : string;
  AllocType_MostCommonFile : string;
  AllocType_MostCommonLine : Z
}.

(** The complete MemPro analysis document. *)
Record MemProData : Type := mkMemProData {
  SessionName : string;
  TotalSnapshots : Z;
  TotalAllocations : Z;
  TotalSize : Z;
  LeakCount : Z;
  LeakSize : Z;
  MemoryFragmentation : float;
  CallTrees : list CallTree;
  Functions : list Function;
  Leaks : list Leak;
  PageViews : list PageView;
  Types : list AllocType
}.

(** A detected memory issue. *)
Record MemoryIssue : Type := mkMemoryIssue {
  Severity : string;
  Type_ : string;
  Description : string;
  FunctionName : string;
  FileName : string;
  LineNumber : Z;
  Size : Z;
  Count : Z;
  Score : float;
  Suggestion : string
}.

(** The analyzer holds a pointer to the loaded document. *)
Record MemoryAnalyzer : Type := mkMemoryAnalyzer {
  data : option MemProData
}.

(** ** The analyzer (analyzer.go)

    The helper methods [calculateLeakSeverity], [formatLeakDescription]
    and [generateLeakSuggestion] never read their receiver, which the
    embedding leaves out. *)

Definition calculateLeakSeverity (leak : Leak) : string :=
  if Leak_IsSuspect leak && (Leak_LeakSize leak >? 100000) then "Critical"
  else if Leak_IsSuspect leak || (Leak_LeakSize leak >? 50000) then "High"
  else if (Leak_LeakSize leak >? 10000) || (Leak_LeakCount leak >? 100)
  then "Medium"
  else "Low".

Definition formatLeakDescription (leak : Leak) : string :=
  if Contains (Leak_FunctionName leak) "Unknown Function" then
    "Unknown function leaked " ++ fmt_d (Leak_LeakSize leak) ++
    " bytes across " ++ fmt_d (Leak_LeakCount leak) ++
    " allocations. This may indicate missing debug symbols or dynamically loaded code."
  else
    "Function leaked " ++ fmt_d (Leak_LeakSize leak) ++
    " bytes across " ++ fmt_d (Leak_LeakCount leak) ++ " allocations".

Definition generateLeakSuggestion (leak : Leak) : string :=
  if Contains (Leak_FunctionName leak) "Unknown Function" then
    "Enable debug symbols and rebuild with full symbol information to identify the exact source of this leak. Check for third-party libraries or dynamically loaded modules."
  else if Contains (Leak_FunctionName leak) "std::_Allocate"
          || Contains (Leak_FunctionName leak) "std::vector" then
    "STL container leak detected. Ensure proper cleanup in destructors, check for circular references, and verify that containers are properly cleared before going out of scope."
  else if Contains (Leak_FunctionName leak) "main" then
    "Leak originated from main function. Review allocation ownership and ensure all allocated resources are freed before program exit. Consider using RAII or smart pointers."
  else
    "Review allocation patterns in this function and ensure all allocated memory is properly deallocated. Consider using smart pointers (std::unique_ptr, std::shared_ptr) or RAII patterns.".

(** The issue [AnalyzeLeaks] appends for a leak it does not skip. *)
Definition leakIssue (leak : Leak) : MemoryIssue :=
  let severity := calculateLeakSeverity leak in
  let suggestion := generateLeakSuggestion leak in
  {| Severity := severity;
     Type_ := "MemoryLeak";
     Description := formatLeakDescription leak;
     FunctionName := Leak_FunctionName leak;
     FileName := Leak_FileName leak;
     LineNumber := Leak_LineNumber leak;
     Size := Leak_LeakSize leak;
     Count := Leak_LeakCount leak;
     Score := Leak_LeakScore leak;
     Suggestion := suggestion |}.

(** The [for _, leak := range ma.data.Leaks] loop of [AnalyzeLeaks];
    [issues] is the slice built so far. *)
Fixpoint leaksLoop (leaks : list Leak) (issues : list MemoryIssue)
  : list MemoryIssue :=
  match leaks with
  | [] => issues
  | leak :: rest =>
      if (Leak_LeakSize leak =? 0) && (Leak_LeakCount leak =? 0)
      then leaksLoop rest issues
      else leaksLoop rest (issues ++ [leakIssue leak])%list
  end.

(** The map literal [severityOrder]. *)
Definition severityOrder : list (string * Z) :=
  [("Critical", 0); ("High", 1); ("Medium", 2); ("Low", 3)].

(** The two-valued map read [v, ok := m[key]]: the zero value and
    [false] when the key is absent. *)
Fixpoint mapGet (m : list (string * Z)) (key : string) : Z * bool :=
  match m with
  | [] => (0, false)
  | (k, v) :: m' => if String.eqb k key then (v, true) else mapGet m' key
  end.

(** The [less] closure [AnalyzeLeaks] hands to [sort.Slice], on the two
    elements it reads. *)
Definition lessIssue (issueI issueJ : MemoryIssue) : bool :=
  let '(orderI, okI) := mapGet severityOrder (Severity issueI) in
  let '(orderJ, okJ) := mapGet severityOrder (Severity issueJ) in
  let orderI := if negb okI then 999 else orderI in
  let orderJ := if negb okJ then 999 else orderJ in
  if negb (orderI =? orderJ) then orderI <? orderJ
  else Size issueI >? Size issueJ.

(** [AnalyzeLeaks] detects and prioritizes memory leaks. *)
Definition AnalyzeLeaks (ma : option MemoryAnalyzer) : list MemoryIssue :=
  let issues := [] in
  match ma with
  | None => issues
  | Some a =>
      match data a with
      | None => issues
      | Some d =>
          let issues := leaksLoop (Leaks d) issues in
          Slice lessIssue issues
      end
  end.

(** [AnalyzeFragmentation] detects memory fragmentation issues. *)
Definition AnalyzeFragmentation (ma : option MemoryAnalyzer)
  : list MemoryIssue :=
  let issues := [] in
  match ma with
  | None => issues
  | Some a =>
      match data a with
      | None => issues
      | Some d =>
          if (80.0 <? MemoryFragmentation d)%float then
            (issues ++
             [{| Severity := "High";
                 Type_ := "MemoryFragmentation";
                 Description :=
                   "Memory fragmentation is at " ++
                   fmt_f 2 (MemoryFragmentation d) ++
                   "%, which indicates severe fragmentation";
                 FunctionName := "";
                 FileName := "";
                 LineNumber := 0;
                 Size := TotalSize d;
                 Count := TotalAllocations d;
                 Score := MemoryFragmentation d;
                 Suggestion := "Consider implementing object pooling or using memory arenas to reduce fragmentation. Review allocation patterns and consolidate small allocations where possible." |}])%list
          else if (50.0 <? MemoryFragmentation d)%float then
            (issues ++
             [{| Severity := "Medium";
                 Type_ := "MemoryFragmentation";
                 Description :=
                   "Memory fragmentation is at " ++
                   fmt_f 2 (MemoryFragmentation d) ++
                   "%, which may impact performance";
                 FunctionName := "";
                 FileName := "";
                 LineNumber := 0;
                 Size := TotalSize d;
                 Count := TotalAllocations d;
                 Score := MemoryFragmentation d;
                 Suggestion := "Monitor fragmentation levels and consider optimizing allocation patterns if fragmentation increases." |}])%list
          else issues
      end
  end.

(** The issue [AnalyzeLargeAllocations] appends for a function that
    meets its trigger. *)
Definition largeAllocationIssue (fn : Function) : MemoryIssue :=
  let severity := "Medium" in
  let severity :=
    if Function_MaxSize fn >? 100000 then "High" else severity in
  {| Severity := severity;
     Type_ := "LargeAllocation";
     Description :=
       "Large allocation detected: average " ++
       fmt_f 0 (Function_AverageSize fn) ++ " bytes, max " ++
       fmt_d (Function_MaxSize fn) ++ " bytes across " ++
       fmt_d (Function_AllocationCount fn) ++ " allocations";
     FunctionName := Function_FunctionName fn;
     FileName := Function_FileName fn;
     LineNumber := Function_LineNumber fn;
     Size := Function_TotalSize fn;
     Count := Function_AllocationCount fn;
     Score := float64 (Function_MaxSize fn);
     Suggestion := "Review if large allocations can be split into smaller chunks or allocated incrementally. Consider using streaming or chunked processing for large data." |}.

(** The [for _, fn := range ma.data.Functions] loop of
    [AnalyzeLargeAllocations]. *)
Fixpoint largeLoop (fns : list Function) (issues : list MemoryIssue)
  : list MemoryIssue :=
  match fns with
  | [] => issues
  | fn :: rest =>
      if (10000 <? Function_AverageSize fn)%float
         || (Function_MaxSize fn >? 50000)
      then largeLoop rest (issues ++ [largeAllocationIssue fn])%list
      else largeLoop rest issues
  end.

(** [AnalyzeLargeAllocations] finds unusually large allocations. *)
Definition AnalyzeLargeAllocations (ma : option MemoryAnalyzer)
  : list MemoryIssue :=
  let issues := [] in
  match ma with
  | None => issues
  | Some a =>
      match data a with
      | None => issues
      | Some d => largeLoop (Functions d) issues
      end
  end.

(** The [for _, leak := range ma.data.Leaks] loop of [GetSummary], which
    counts the suspect leaks. *)
Fixpoint suspectLoop (leaks : list Leak) (suspectLeaks : Z) : Z :=
  match leaks with
  | [] => suspectLeaks
  | leak :: rest =>
      if Leak_IsSuspect leak then suspectLoop rest (suspectLeaks + 1)
      else suspectLoop rest suspectLeaks
  end.

(** [GetSummary] provides an overall summary of memory usage. *)
Definition GetSummary (ma : option MemoryAnalyzer) : string :=
  match ma with
  | None => "Error: No data available for analysis"
  | Some a =>
      match data a with
      | None => "Error: No data available for analysis"
      | Some d =>
          let leakPercentage := 0.0%float in
          let leakPercentage :=
            if TotalSize d >? 0
            then (float64 (LeakSize d) / float64 (TotalSize d) * 100)%float
            else leakPercentage in
          let summary :=
            "Memory Analysis Summary" ++ nl ++
            "======================" ++ nl ++
            "Session: " ++ SessionName d ++ nl ++
            "Total Allocations: " ++ fmt_d (TotalAllocations d) ++ nl ++
            "Total Size: " ++ fmt_d (TotalSize d) ++ " bytes (" ++
              fmt_f 2 (float64 (TotalSize d) / 1024 / 1024)%float ++
              " MB)" ++ nl ++
            "Leak Count: " ++ fmt_d (LeakCount d) ++ nl ++
            "Leak Size: " ++ fmt_d (LeakSize d) ++ " bytes (" ++
              fmt_f 2 (float64 (LeakSize d) / 1024 / 1024)%float ++
              " MB)" ++ nl ++
            "Leak Percentage: " ++ fmt_f 2 leakPercentage ++ "%" ++ nl ++
            "Memory Fragmentation: " ++
              fmt_f 2 (MemoryFragmentation d) ++ "%" ++ nl ++
            nl ++
            "Critical Findings:" ++ nl in
          let summary :=
            if (50 <? leakPercentage)%float
            then summary ++
                 "- CRITICAL: Over 50% of allocated memory is leaked!" ++ nl
            else summary in
          let summary :=
            if (80 <? MemoryFragmentation d)%float
            then summary ++
                 "- HIGH: Severe memory fragmentation detected" ++ nl
            else summary in
          let suspectLeaks := suspectLoop (Leaks d) 0 in
          let summary :=
            if suspectLeaks >? 0
            then summary ++ "- " ++ fmt_d suspectLeaks ++
                 " suspect leak locations identified" ++ nl
            else summary in
          summary
      end
  end.

(** The [less] closure [GetTopLeakers] hands to [sort.Slice]. *)
Definition lessLeak (leakI leakJ : Leak) : bool :=
  Leak_LeakSize leakI >? Leak_LeakSize leakJ.

(** What one round of the loop of [GetTopLeakers] writes for
    [leak := leaks[i]]. *)
Definition leakerEntry (i : Z) (leak : Leak) : string :=
  fmt_d (i + 1) ++ ". " ++ Leak_FunctionName leak ++ nl ++
  "   Leak Size: " ++ fmt_d (Leak_LeakSize leak) ++ " bytes (" ++
    fmt_f 2 (float64 (Leak_LeakSize leak) / 1024)%float ++ " KB)" ++ nl ++
  "   Leak Count: " ++ fmt_d (Leak_LeakCount leak) ++ " allocations" ++ nl ++
  "   Leak Score: " ++ fmt_f 2 (Leak_LeakScore leak) ++ nl ++
  "   Suspect: " ++ fmt_v (Leak_IsSuspect leak) ++ nl ++
  (if negb (String.eqb (Leak_FileName leak) "")
   then "   Location: " ++ Leak_FileName leak ++ ":" ++
        fmt_d (Leak_LineNumber leak) ++ nl
   else "") ++
  (if negb (String.eqb (Leak_CallStack leak) "")
   then "   CallStack: " ++ Leak_CallStack leak ++ nl
   else "") ++
  nl.

(** The loop [for i := 0; i < n; i++] of [GetTopLeakers]: [rounds] is
    the number of rounds left, [n - i] when [i < n] and none otherwise;
    [result] is what the builder holds. Reading [leaks[i]] beyond the
    slice panics. *)
Fixpoint leakersLoop (leaks : list Leak) (i : nat) (rounds : nat)
    (result : string) : Go.result string :=
  match rounds with
  | O => Ok result
  | S rounds' =>
      match nth_error leaks i with
      | None => Panic "index out of range"
      | Some leak =>
          leakersLoop leaks (S i) rounds'
            (result ++ leakerEntry (Z.of_nat i) leak)
      end
  end.

(** [GetTopLeakers] returns the top N functions by leak size. *)
Definition GetTopLeakers (ma : option MemoryAnalyzer) (n : Z)
  : Go.result string :=
  match ma with
  | None => Ok "Error: No data available for analysis"
  | Some a =>
      match data a with
      | None => Ok "Error: No data available for analysis"
      | Some d =>
          let leaks := Leaks d in
          let leaks := Slice lessLeak leaks in
          let n := if n >? Z.of_nat (length leaks)
                   then Z.of_nat (length leaks) else n in
          let result := "" in
          let result := result ++ "Top " ++ fmt_d n ++ " Memory Leakers:" ++ nl in
          let result := result ++ "====================" ++ nl ++ nl in
          leakersLoop leaks 0 (Z.to_nat n) result
      end
  end.

(** ** The specification's vocabulary *)

(** The loaded analyzer of a document. *)
Definition loaded (d : MemProData) : option MemoryAnalyzer :=
  Some (mkMemoryAnalyzer (Some d)).

(** The document [d] with [leaks] as its leak records. *)
Definition withLeaks (d : MemProData) (leaks : list Leak) : MemProData :=
  mkMemProData (SessionName d) (TotalSnapshots d) (TotalAllocations d)
    (TotalSize d) (LeakCount d) (LeakSize d) (MemoryFragmentation d)
    (CallTrees d) (Functions d) leaks (PageViews d) (Types d).

(** The skip rule of the leak analyzer. *)
Definition skipped (leak : Leak) : Prop :=
  Leak_LeakSize leak = 0 /\ Leak_LeakCount leak = 0.

(** The precedence table of the leak analyzer: the first rule that
    matches gives the severity. *)
Definition critical_rule (leak : Leak) : Prop :=
  Leak_IsSuspect leak = true /\ 100000 < Leak_LeakSize leak.

Definition high_rule (leak : Leak) : Prop :=
  Leak_IsSuspect leak = true \/ 50000 < Leak_LeakSize leak.

Definition medium_rule (leak : Leak) : Prop :=
  10000 < Leak_LeakSize leak \/ 100 < Leak_LeakCount leak.

Inductive severity_rule (leak : Leak) : string -> Prop :=
| severity_Critical :
    critical_rule leak -> severity_rule leak "Critical"
| severity_High :
    ~ critical_rule leak -> high_rule leak -> severity_rule leak "High"
| severity_Medium :
    ~ critical_rule leak -> ~ high_rule leak -> medium_rule leak ->
    severity_rule leak "Medium"
| severity_Low :
    ~ critical_rule leak -> ~ high_rule leak -> ~ medium_rule leak ->
    severity_rule leak "Low".

(** The severity rank of the ordering: Critical, High, Medium, Low, and
    every other string after them. *)
Definition severityRank (severity : string) : Z :=
  if String.eqb severity "Critical" then 0
  else if String.eqb severity "High" then 1
  else if String.eqb severity "Medium" then 2
  else if String.eqb severity "Low" then 3
  else 999.

(** The trigger of the large-allocation analyzer. *)
Definition large_trigger (fn : Function) : Prop :=
  (10000 <? Function_AverageSize fn)%float = true
  \/ 50000 < Function_MaxSize fn.

Definition large_triggerb (fn : Function) : bool :=
  (10000 <? Function_AverageSize fn)%float || (50000 <? Function_MaxSize fn).

(** The leak percentage of the summary. *)
Definition leakPercentageOf (d : MemProData) : float :=
  (float64 (LeakSize d) / float64 (TotalSize d) * 100)%float.

(** The summary up to its leak percentage, and from its fragmentation
    line on, given the leak percentage [pct] the findings test. *)
Definition summaryHead (d : MemProData) : string :=
  "Memory Analysis Summary" ++ nl ++
  "======================" ++ nl ++
  "Session: " ++ SessionName d ++ nl ++
  "Total Allocations: " ++ fmt_d (TotalAllocations d) ++ nl ++
  "Total Size: " ++ fmt_d (TotalSize d) ++ " bytes (" ++
    fmt_f 2 (float64 (TotalSize d) / 1024 / 1024)%float ++ " MB)" ++ nl ++
  "Leak Count: " ++ fmt_d (LeakCount d) ++ nl ++
  "Leak Size: " ++ fmt_d (LeakSize d) ++ " bytes (" ++
    fmt_f 2 (float64 (LeakSize d) / 1024 / 1024)%float ++ " MB)" ++ nl.

Definition summaryFindings (d : MemProData) (pct : float) : string :=
  (if (50 <? pct)%float
   then "- CRITICAL: Over 50% of allocated memory is leaked!" ++ nl
   else "") ++
  (if (80 <? MemoryFragmentation d)%float
   then "- HIGH: Severe memory fragmentation detected" ++ nl
   else "") ++
  (if suspectLoop (Leaks d) 0 >? 0
   then "- " ++ fmt_d (suspectLoop (Leaks d) 0) ++
        " suspect leak locations identified" ++ nl
   else "").

Definition summaryTail (d : MemProData) (pct : float) : string :=
  "Memory Fragmentation: " ++ fmt_f 2 (MemoryFragmentation d) ++ "%" ++ nl ++
  nl ++
  "Critical Findings:" ++ nl ++
  summaryFindings d pct.

(** The header of the top-leakers report for a count of [n]. *)
Definition leakersHeader (n : Z) : string :=
  "Top " ++ fmt_d n ++ " Memory Leakers:" ++ nl ++
  "====================" ++ nl ++ nl.

(** The entries of the top-leakers report for the leaks [ranked], the
    first of which has index [i]. *)
Fixpoint leakerEntries (i : nat) (ranked : list Leak) : list string :=
  match ranked with
  | [] => []
  | leak :: rest => leakerEntry (Z.of_nat i) leak :: leakerEntries (S i) rest
  end.

(** *** The entries of the top-leakers report, as they are to read

    What the report shows of one leak record, line by line: the place
    of the record in the ranking, counted from 1, and its function
    name; the leaked bytes, also in kibibytes with two decimals; the
    leaked count; the leak score with two decimals; the suspect flag;
    the location, when the record names a file; the call stack, when
    the record has one; and an empty line that closes the entry. *)
Definition entryLines (rank : Z) (leak : Leak) : list string :=
  List.app
    [fmt_d rank ++ ". " ++ Leak_FunctionName leak;
     "   Leak Size: " ++ fmt_d (Leak_LeakSize leak) ++ " bytes (" ++
       fmt_f 2 (float64 (Leak_LeakSize leak) / 1024)%float ++ " KB)";
     "   Leak Count: " ++ fmt_d (Leak_LeakCount leak) ++ " allocations";
     "   Leak Score: " ++ fmt_f 2 (Leak_LeakScore leak);
     "   Suspect: " ++ (if Leak_IsSuspect leak then "true" else "false")]
    (List.app
       (if String.eqb (Leak_FileName leak) "" then []
        else ["   Location: " ++ Leak_FileName leak ++ ":" ++
              fmt_d (Leak_LineNumber leak)])
       (List.app
          (if String.eqb (Leak_CallStack leak) "" then []
           else ["   CallStack: " ++ Leak_CallStack leak])
          [""])).

(** Lines as a text: each line and its line feed. *)
Fixpoint unlines (lines : list string) : string :=
  match lines with
  | [] => ""
  | line :: rest => line ++ nl ++ unlines rest
  end.

(** The text of the entry of [leak] at the place [rank]. *)
Definition entryText (rank : Z) (leak : Leak) : string :=
  unlines (entryLines rank leak).

(** The texts of the entries of the records [ranked], the first of
    which stands at the place [rank]. *)
Fixpoint reportEntries (rank : Z) (ranked : list Leak) : list string :=
  match ranked with
  | [] => []
  | leak :: rest => entryText rank leak :: reportEntries (rank + 1) rest
  end.

(** [entry] shows [leak] at the place [rank]: it begins with the
    number, the function name of the record on the rest of that line,
    and the leaked bytes of the record on the next. *)
Definition shows (rank : Z) (leak : Leak) (entry : string) : Prop :=
  String.prefix
    (fmt_d rank ++ ". " ++ Leak_FunctionName leak ++ nl ++
     "   Leak Size: " ++ fmt_d (Leak_LeakSize leak) ++ " bytes (")
    entry = true.

(** Every entry of [entries] shows the record of [ranked] at its place,
    the places counted from [rank]. *)
Fixpoint all_shown (rank : Z) (ranked : list Leak) (entries : list string)
  : Prop :=
  match ranked, entries with
  | [], [] => True
  | leak :: ranked', entry :: entries' =>
      shows rank leak entry /\ all_shown (rank + 1) ranked' entries'
  | _, _ => False
  end.

(** The strings of a list, one after the other. *)
Definition joined (parts : list string) : string :=
  fold_right String.append "" parts.

(** [not_before less a b]: [b], which comes after [a], is not [less]
    than [a]. *)
Definition not_before {A : Type} (less : A -> A -> bool) (a b : A) : Prop :=
  less b a = false.

(** [not_before_rev less b a]: in a prefix kept last element first, [b]
    stands before [a] in the list, so after it in the slice, and is not
    [less] than it. *)
Definition not_before_rev {A : Type} (less : A -> A -> bool) (b a : A)
  : Prop :=
  less b a = false.

(** Descending leaked-byte size. *)
Definition size_desc (a b : Leak) : Prop :=
  Leak_LeakSize a >= Leak_LeakSize b.

(** The suggestion for a function the profiler could not name. *)
Definition debugSymbolsSuggestion : string :=
  "Enable debug symbols and rebuild with full symbol information to identify the exact source of this leak. Check for third-party libraries or dynamically loaded modules.".

(** The leaks [AnalyzeLeaks] does not skip. *)
Definition kept (leak : Leak) : bool :=
  negb ((Leak_LeakSize leak =? 0) && (Leak_LeakCount leak =? 0)).

(** *** Sample documents *)

Definition unknownLeak : Leak :=
  mkLeak "Unknown Function at 0x1234" "" 0 5000 1 0%float "" false.

Definition mainLeak : Leak :=
  mkLeak "main" "main.cpp" 7 200000 2 9.25%float "main <- start" true.

Definition vectorLeak : Leak :=
  mkLeak "std::vector<int>::push_back" "" 0 60000 150 1.5%float "" false.

Definition emptyLeak : Leak :=
  mkLeak "idle" "" 0 0 0 0%float "" true.

(** A name with every marker the suggestion heuristic looks for. *)
Definition mixedLeak : Leak :=
  mkLeak "Unknown Function in std::vector<int> of main" "" 0 5000 1
    0%float "" false.

Definition bigFunction : Function :=
  mkFunction "load" "load.cpp" 3 3 45000 15000%float 10 120000 1.5%float.

Definition smallFunction : Function :=
  mkFunction "tick" "tick.cpp" 9 100 800 8%float 8 8 0.5%float.

Definition sampleData : MemProData :=
  mkMemProData "session" 1 10 1000000 4 600000 85.5%float []
    [smallFunction; bigFunction]
    [unknownLeak; emptyLeak; mainLeak; vectorLeak] [] [].

(** A document whose total size is zero. *)
Definition zeroTotal : MemProData :=
  mkMemProData "zero" 1 0 0 1 5000 10%float [] [] [unknownLeak] [] [].

(** A document of the given fragmentation. *)
Definition fragmented (f : float) : MemProData :=
  mkMemProData "fragmented" 1 10 1000 0 0 f [] [] [] [] [].

(** ** The server (main.go)

    The tool handlers resolve the path of the document, load it and hand
    the loaded analyzer to one analysis. What lies outside the
    repository is a parameter of the embedding, gathered in [World]:
    the file system ([os.ReadFile]), the JSON decoder and encoder
    ([json.Unmarshal], [json.MarshalIndent]), the environment
    ([os.Getenv]) and the value a conversion [int(x)] has where the
    language leaves it to the implementation. A Go [error] is its
    message; a nil [error] is [None]. *)

(** A value held in an [interface{}]: what the JSON decoder delivers,
    and the integers the statistics resource stores. *)
#[warnings="-register-all"] Inductive value : Type :=
| VNil
| VBool (b : bool)
| VNumber (f : float)
| VString (s : string)
| VInt (z : Z)
| VArray (items : list value)
| VObject (fields : list (string * value)).

(** The arguments of a tool call, [map[string]interface{}], as the read
    [args[key]]: [None] for an absent key. *)
Definition Args : Type := string -> option value.

(** The type assertion [v.(string)] in its two-valued form. *)
Definition assertString (v : option value) : string * bool :=
  match v with
  | Some (VString s) => (s, true)
  | _ => ("", false)
  end.

(** The type assertion [v.(float64)] in its two-valued form. *)
Definition assertFloat64 (v : option value) : float * bool :=
  match v with
  | Some (VNumber f) => (f, true)
  | _ => (0%float, false)
  end.

(** The anonymous struct [handleGetAllIssues] encodes. *)
Record AllIssues : Type := mkAllIssues {
  AllIssues_Summary : string;
  AllIssues_Leaks : list MemoryIssue;
  AllIssues_Fragmentation : list MemoryIssue;
  AllIssues_LargeAllocs : list MemoryIssue
}.

Record World : Type := mkWorld {
  (** [os.ReadFile]: the content of the file, or the error. *)
  ReadFile : string -> string + string;
  (** [json.Unmarshal] into a [MemProData]: the document, or the error. *)
  Unmarshal : string -> MemProData + string;
  (** [os.Getenv]: the empty string for a variable that is not set. *)
  Getenv : string -> string;
  (** [json.MarshalIndent] of a slice of issues, of the struct of all
      issues and of the statistics map: the text, or the error. *)
  MarshalIssues : list MemoryIssue -> string + string;
  MarshalAllIssues : AllIssues -> string + string;
  MarshalStats : list (string * value) -> string + string;
  (** [int(x)] for an [x] that no [int] represents. *)
  intOutOfRange : float -> Z
}.

(** [mcp.CallToolResult], of which the handlers set the text and the
    error flag. *)
Record CallToolResult : Type := mkCallToolResult {
  Text : string;
  IsError : bool
}.

Definition NewToolResultText (text : string) : CallToolResult :=
  mkCallToolResult text false.

Definition NewToolResultError (text : string) : CallToolResult :=
  mkCallToolResult text true.

(** [mcp.TextResourceContents]. *)
Record TextResourceContents : Type := mkTextResourceContents {
  URI : string;
  MIMEType : string;
  ResourceText : string
}.

Definition defaultJSONPath : string :=
  "C:\Program Files\PureDevSoftware\MemPro\MemProReader\test_memory_analysis.json".

(** The integer part of [x], towards zero, when it is an [int] (64
    bits); [None] for a NaN, an infinity or a value out of range. *)
Definition truncate (x : float) : option Z :=
  match Prim2SF x with
  | S754_zero _ => Some 0
  | S754_finite negative m e =>
      let magnitude :=
        if 0 <=? e then Zpos m * 2 ^ e else Zpos m / 2 ^ (- e) in
      let z := if negative then - magnitude else magnitude in
      if (- 2 ^ 63 <=? z) && (z <? 2 ^ 63) then Some z else None
  | _ => None
  end.

(** The conversion [int(x)] of a [float64]. *)
Definition int_of_float64 (w : World) (x : float) : Z :=
  match truncate x with
  | Some z => z
  | None => intOutOfRange w x
  end.

(** [NewMemoryAnalyzer] creates a new analyzer from a JSON file; it
    returns the analyzer and the error. *)
Definition NewMemoryAnalyzer (w : World) (jsonPath : string)
  : option MemoryAnalyzer * option string :=
  match ReadFile w jsonPath with
  | inr err => (None, Some ("failed to read JSON file: " ++ err))
  | inl fileData =>
      match Unmarshal w fileData with
      | inr err => (None, Some ("failed to parse JSON: " ++ err))
      | inl d => (Some (mkMemoryAnalyzer (Some d)), None)
      end
  end.

(** [getJSONPath] gets the path from the arguments or uses the default. *)
Definition getJSONPath (w : World) (args : Args) : string :=
  let '(path, ok) := assertString (args "json_path") in
  if ok && negb (String.eqb path "") then path
  else
    let envPath := Getenv w "MEMPRO_JSON_PATH" in
    if negb (String.eqb envPath "") then envPath
    else defaultJSONPath.

(** The encoding step the three handlers of issue lists share:
    [json.MarshalIndent(issues, "", "  ")] and the result built of it. *)
Definition issuesResult (w : World) (issues : list MemoryIssue)
  : CallToolResult * option string :=
  match MarshalIssues w issues with
  | inr err =>
      (NewToolResultError ("Failed to format results: " ++ err), None)
  | inl result => (NewToolResultText result, None)
  end.

Definition handleAnalyzeLeaks (w : World) (args : Args)
  : CallToolResult * option string :=
  let jsonPath := getJSONPath w args in
  let '(analyzer, err) := NewMemoryAnalyzer w jsonPath in
  match err with
  | Some err => (NewToolResultError ("Failed to analyze: " ++ err), None)
  | None =>
      let issues := AnalyzeLeaks analyzer in
      issuesResult w issues
  end.

Definition handleGetSummary (w : World) (args : Args)
  : CallToolResult * option string :=
  let jsonPath := getJSONPath w args in
  let '(analyzer, err) := NewMemoryAnalyzer w jsonPath in
  match err with
  | Some err => (NewToolResultError ("Failed to analyze: " ++ err), None)
  | None =>
      let summary := GetSummary analyzer in
      (NewToolResultText summary, None)
  end.

(** The count [handleGetTopLeakers] reads from the arguments. *)
Definition leakersCount (w : World) (args : Args) : Z :=
  let count := 10 in
  let '(countArg, ok) := assertFloat64 (args "count") in
  if ok then int_of_float64 w countArg else count.

Definition handleGetTopLeakers (w : World) (args : Args)
  : Go.result (CallToolResult * option string) :=
  let jsonPath := getJSONPath w args in
  let count := leakersCount w args in
  let '(analyzer, err) := NewMemoryAnalyzer w jsonPath in
  match err with
  | Some err =>
      Ok (NewToolResultError ("Failed to analyze: " ++ err), None)
  | None =>
      match GetTopLeakers analyzer count with
      | Panic msg => Panic msg
      | Ok topLeakers => Ok (NewToolResultText topLeakers, None)
      end
  end.

Definition handleAnalyzeFragmentation (w : World) (args : Args)
  : CallToolResult * option string :=
  let jsonPath := getJSONPath w args in
  let '(analyzer, err) := NewMemoryAnalyzer w jsonPath in
  match err with
  | Some err => (NewToolResultError ("Failed to analyze: " ++ err), None)
  | None =>
      let issues := AnalyzeFragmentation analyzer in
      issuesResult w issues
  end.

Definition handleFindLargeAllocations (w : World) (args : Args)
  : CallToolResult * option string :=
  let jsonPath := getJSONPath w args in
  let '(analyzer, err) := NewMemoryAnalyzer w jsonPath in
  match err with
  | Some err => (NewToolResultError ("Failed to analyze: " ++ err), None)
  | None =>
      let issues := AnalyzeLargeAllocations analyzer in
      issuesResult w issues
  end.

Definition handleGetAllIssues (w : World) (args : Args)
  : CallToolResult * option string :=
  let jsonPath := getJSONPath w args in
  let '(analyzer, err) := NewMemoryAnalyzer w jsonPath in
  match err with
  | Some err => (NewToolResultError ("Failed to analyze: " ++ err), None)
  | None =>
      let allIssues :=
        {| AllIssues_Summary := GetSummary analyzer;
           AllIssues_Leaks := AnalyzeLeaks analyzer;
           AllIssues_Fragmentation := AnalyzeFragmentation analyzer;
           AllIssues_LargeAllocs := AnalyzeLargeAllocations analyzer |} in
      match MarshalAllIssues w allIssues with
      | inr err =>
          (NewToolResultError ("Failed to format results: " ++ err), None)
      | inl result => (NewToolResultText result, None)
      end
  end.

(** The handler of the resource [mempro://stats] that [setupResources]
    registers. It reads [analyzer.data] without a test for nil: a nil
    pointer there is a panic. *)
Definition statsResource (w : World)
  : Go.result (list TextResourceContents * option string) :=
  let '(analyzer, err) := NewMemoryAnalyzer w defaultJSONPath in
  match err with
  | Some err => Ok ([], Some ("failed to load analyzer: " ++ err))
  | None =>
      match analyzer with
      | None => Panic "nil pointer dereference"
      | Some a =>
          match data a with
          | None => Panic "nil pointer dereference"
          | Some d =>
              let leakPercentage := 0.0%float in
              let leakPercentage :=
                if TotalSize d >? 0
                then (float64 (LeakSize d) / float64 (TotalSize d) * 100)%float
                else leakPercentage in
              let stats :=
                [("session", VString (SessionName d));
                 ("total_allocations", VInt (TotalAllocations d));
                 ("total_size", VInt (TotalSize d));
                 ("leak_count", VInt (LeakCount d));
                 ("leak_size", VInt (LeakSize d));
                 ("fragmentation", VNumber (MemoryFragmentation d));
                 ("leak_percentage", VNumber leakPercentage)] in
              match MarshalStats w stats with
              | inr err => Ok ([], Some err)
              | inl jsonData =>
                  let textContent :=
                    {| URI := "mempro://stats";
                       MIMEType := "application/json";
                       ResourceText := jsonData |} in
                  Ok ([textContent], None)
              end
          end
      end
  end.

(** *** Vocabulary of the further properties *)

(** The two sort keys of an issue. *)
Definition issueKey (issue : MemoryIssue) : Z * Z :=
  (severityRank (Severity issue), Size issue).

(** The order of the leak analyzer on keys: a lower rank first, and at
    equal rank a larger size first. *)
Definition key_le (k1 k2 : Z * Z) : Prop :=
  fst k1 < fst k2 \/ (fst k1 = fst k2 /\ snd k1 >= snd k2).

(** The number of rounds of the loop of [GetTopLeakers] for a count of
    [n] on [len] leaks. *)
Definition listed (n : Z) (len : nat) : nat :=
  Z.to_nat (Z.min n (Z.of_nat len)).

(** *** A sample world *)

(** One readable file that decodes to the sample document, one that
    does not decode, and nothing else; no environment variable. *)
Definition sampleWorld : World :=
  {| ReadFile := fun path =>
       if String.eqb path "leaks.json" then inl "{sample}"
       else if String.eqb path "broken.json" then inl "{"
       else inr ("open " ++ path ++ ": no such file");
     Unmarshal := fun content =>
       if String.eqb content "{sample}" then inl sampleData
       else inr "unexpected end of JSON input";
     Getenv := fun _ => "";
     MarshalIssues := fun issues =>
       inl (fmt_d (Z.of_nat (length issues)) ++ " issues");
     MarshalAllIssues := fun all => inl (AllIssues_Summary all);
     MarshalStats := fun stats =>
       inl (fmt_d (Z.of_nat (length stats)) ++ " fields");
     intOutOfRange := fun _ => - 2 ^ 63 |}.

Definition noArgs : Args := fun _ => None.

(** The arguments [{"json_path": path}]. *)
Definition pathArgs (path : string) : Args :=
  fun key => if String.eqb key "json_path" then Some (VString path) else None.

(** The arguments [{"json_path": path, "count": count}]. *)
Definition countArgs (path : string) (count : value) : Args :=
  fun key =>
    if String.eqb key "json_path" then Some (VString path)
    else if String.eqb key "count" then Some count
    else None.

(** ** Strings *)

Lemma append_assoc (a b c : string) : ((a ++ b) ++ c = a ++ (b ++ c))%string.
Proof.
  induction a as [|ch a IH]; simpl; [reflexivity | now rewrite IH].
Qed.

Lemma append_empty_r (a : string) : (a ++ "")%string = a.
Proof.
  induction a as [|ch a IH]; simpl; [reflexivity | now rewrite IH].
Qed.

(** ** The embedding at work *)

(** [%.2f] rounds the exact binary value to two decimals, ties to even,
    and keeps the sign of a negative zero. *)
Example fmt_f_examples :
  fmt_f 2 60%float = "60.00"
  /\ fmt_f 2 0.125%float = "0.12"
  /\ fmt_f 2 0.375%float = "0.38"
  /\ fmt_f 2 (-0.25)%float = "-0.25"
  /\ fmt_f 2 (-0)%float = "-0.00"
  /\ fmt_f 0 15000.5%float = "15000"
  /\ fmt_f 0 15001.5%float = "15002"
  /\ fmt_f 2 infinity = "+Inf"
  /\ fmt_f 2 nan = "NaN"
  /\ fmt_f 2 (float64 5000 / 1024)%float = "4.88".
Proof. repeat split. Qed.

Example fmt_d_examples :
  fmt_d 0 = "0" /\ fmt_d 1200 = "1200" /\ fmt_d (-15) = "-15".
Proof. repeat split. Qed.

Example Contains_examples :
  Contains "Unknown Function at 0x1234" "Unknown Function" = true
  /\ Contains "unknown function" "Unknown Function" = false
  /\ Contains "domain" "main" = true
  /\ Contains "abc" "" = true
  /\ Contains "" "" = true.
Proof. repeat split. Qed.

Example Slice_example :
  Slice Z.gtb [3; 1; 2; 5; 4; 1] = [5; 4; 3; 2; 1; 1].
Proof. reflexivity. Qed.

(** The leaks of the sample document in the order of the leak analyzer:
    Critical first, then High, then Low; the record with nothing leaked
    is left out. *)
Example AnalyzeLeaks_sample :
  AnalyzeLeaks (loaded sampleData)
  = [leakIssue mainLeak; leakIssue vectorLeak; leakIssue unknownLeak]
  /\ map Severity (AnalyzeLeaks (loaded sampleData))
     = ["Critical"; "High"; "Low"].
Proof. split; reflexivity. Qed.

(** A document with 600000 of 1000000 bytes leaked has the CRITICAL line
    in its summary. *)
Example GetSummary_sample :
  GetSummary (loaded sampleData)
  = "Memory Analysis Summary" ++ nl ++
    "======================" ++ nl ++
    "Session: session" ++ nl ++
    "Total Allocations: 10" ++ nl ++
    "Total Size: 1000000 bytes (0.95 MB)" ++ nl ++
    "Leak Count: 4" ++ nl ++
    "Leak Size: 600000 bytes (0.57 MB)" ++ nl ++
    "Leak Percentage: 60.00%" ++ nl ++
    "Memory Fragmentation: 85.50%" ++ nl ++
    nl ++
    "Critical Findings:" ++ nl ++
    "- CRITICAL: Over 50% of allocated memory is leaked!" ++ nl ++
    "- HIGH: Severe memory fragmentation detected" ++ nl ++
    "- 2 suspect leak locations identified" ++ nl.
Proof. reflexivity. Qed.

Example GetTopLeakers_sample :
  GetTopLeakers (loaded sampleData) 2
  = Ok ("Top 2 Memory Leakers:" ++ nl ++
        "====================" ++ nl ++
        nl ++
        "1. main" ++ nl ++
        "   Leak Size: 200000 bytes (195.31 KB)" ++ nl ++
        "   Leak Count: 2 allocations" ++ nl ++
        "   Leak Score: 9.25" ++ nl ++
        "   Suspect: true" ++ nl ++
        "   Location: main.cpp:7" ++ nl ++
        "   CallStack: main <- start" ++ nl ++
        nl ++
        "2. std::vector<int>::push_back" ++ nl ++
        "   Leak Size: 60000 bytes (58.59 KB)" ++ nl ++
        "   Leak Count: 150 allocations" ++ nl ++
        "   Leak Score: 1.50" ++ nl ++
        "   Suspect: false" ++ nl ++
        nl)%string.
Proof. reflexivity. Qed.

(** A count beyond the slice would panic were it not clamped: the loop
    itself reads [leaks[i]] unguarded. *)
Example leakersLoop_out_of_range :
  leakersLoop [unknownLeak] 0 2 "" = Panic "index out of range".
Proof. reflexivity. Qed.

(** ** [sort.Slice] returns an ordered permutation *)

Section SortFacts.
Context {A : Type} (less : A -> A -> bool).

Hypothesis less_asym : forall a b, less a b = true -> less b a = false.

Lemma sink_perm (x : A) (l : list A) : Permutation (sink less x l) (x :: l).
Proof.
  induction l as [|y ys IH]; simpl; [reflexivity|].
  destruct (less x y); [|reflexivity].
  rewrite IH. apply perm_swap.
Qed.

Lemma insertionSort_perm (todo acc : list A) :
  Permutation (insertionSort less acc todo) (acc ++ todo).
Proof.
  revert acc. induction todo as [|x rest IH]; intros acc; simpl.
  - rewrite app_nil_r. symmetry. apply Permutation_rev.
  - rewrite IH, sink_perm. apply Permutation_middle.
Qed.

Lemma Slice_perm (l : list A) : Permutation (Slice less l) l.
Proof. apply (insertionSort_perm l []). Qed.

Lemma Slice_length (l : list A) : length (Slice less l) = length l.
Proof. apply Permutation_length, Slice_perm. Qed.

Lemma sink_hd (y x : A) (l : list A) :
  less x y = true -> HdRel (not_before_rev less) y l ->
  HdRel (not_before_rev less) y (sink less x l).
Proof.
  intros Hxy Hl. destruct l as [|z zs]; simpl.
  - constructor. now apply less_asym.
  - destruct (less x z).
    + constructor. now apply HdRel_inv in Hl.
    + constructor. now apply less_asym.
Qed.

Lemma sink_sorted (x : A) (l : list A) :
  Sorted (not_before_rev less) l -> Sorted (not_before_rev less) (sink less x l).
Proof.
  induction l as [|y ys IH]; intros Hs; simpl.
  - repeat constructor.
  - apply Sorted_inv in Hs as [Hys Hhd].
    destruct (less x y) eqn:Hxy.
    + constructor; [now apply IH | now apply sink_hd].
    + constructor; [now constructor | now constructor].
Qed.

Lemma Sorted_snoc (R : A -> A -> Prop) (l : list A) (x : A) :
  Sorted R l -> HdRel (fun b a => R a b) x (rev l) -> Sorted R (l ++ [x]).
Proof.
  induction l as [|a l IH]; intros Hs Hx; simpl.
  - repeat constructor.
  - apply Sorted_inv in Hs as [Hl Hhd]. simpl in Hx. constructor.
    + apply IH; [assumption|].
      destruct (rev l) as [|z zs]; [constructor|].
      simpl in Hx. apply HdRel_inv in Hx. now constructor.
    + destruct l as [|b l']; simpl.
      * constructor. simpl in Hx. now apply HdRel_inv in Hx.
      * constructor. now apply HdRel_inv in Hhd.
Qed.

Lemma Sorted_rev (l : list A) :
  Sorted (not_before_rev less) l -> Sorted (not_before less) (rev l).
Proof.
  induction l as [|a l IH]; intros Hs; simpl; [constructor|].
  apply Sorted_inv in Hs as [Hl Hhd].
  apply Sorted_snoc; [now apply IH|].
  rewrite rev_involutive.
  destruct l as [|b l']; constructor.
  apply HdRel_inv in Hhd. exact Hhd.
Qed.

Lemma insertionSort_sorted (todo acc : list A) :
  Sorted (not_before_rev less) acc ->
  Sorted (not_before less) (insertionSort less acc todo).
Proof.
  revert acc. induction todo as [|x rest IH]; intros acc Hs; simpl.
  - now apply Sorted_rev.
  - apply IH. now apply sink_sorted.
Qed.

Lemma Slice_sorted (l : list A) : Sorted (not_before less) (Slice less l).
Proof. apply insertionSort_sorted. constructor. Qed.

End SortFacts.

Lemma Sorted_nth_error {A : Type} (R : A -> A -> Prop) (l : list A) :
  Sorted R l ->
  forall i a b,
    nth_error l i = Some a -> nth_error l (S i) = Some b -> R a b.
Proof.
  induction 1 as [|x l Hs IH Hhd]; intros i a b Ha Hb.
  - destruct i; discriminate.
  - destruct i as [|i]; simpl in Ha, Hb.
    + injection Ha as <-. destruct l as [|y l']; [discriminate|].
      simpl in Hb. injection Hb as <-. now apply HdRel_inv in Hhd.
    + now apply (IH i).
Qed.

(** ** The loops as maps and filters *)

Lemma kept_skipped (leak : Leak) : kept leak = false <-> skipped leak.
Proof.
  unfold kept, skipped.
  rewrite negb_false_iff, andb_true_iff, !Z.eqb_eq. reflexivity.
Qed.

Lemma kept_not_skipped (leak : Leak) : kept leak = true <-> ~ skipped leak.
Proof.
  rewrite <- kept_skipped. destruct (kept leak); split; congruence.
Qed.

Lemma leaksLoop_spec (leaks : list Leak) (issues : list MemoryIssue) :
  leaksLoop leaks issues
  = (issues ++ map leakIssue (filter kept leaks))%list.
Proof.
  revert issues. induction leaks as [|leak rest IH]; intros issues; simpl.
  - now rewrite app_nil_r.
  - unfold kept at 1.
    destruct ((Leak_LeakSize leak =? 0) && (Leak_LeakCount leak =? 0)); simpl.
    + apply IH.
    + rewrite IH, <- app_assoc. reflexivity.
Qed.

Lemma largeLoop_spec (fns : list Function) (issues : list MemoryIssue) :
  largeLoop fns issues
  = (issues ++ map largeAllocationIssue (filter large_triggerb fns))%list.
Proof.
  revert issues. induction fns as [|fn rest IH]; intros issues; simpl.
  - now rewrite app_nil_r.
  - unfold large_triggerb at 1. rewrite (Z.gtb_ltb (Function_MaxSize fn)).
    destruct ((10000 <? Function_AverageSize fn)%float
              || (50000 <? Function_MaxSize fn)); simpl.
    + rewrite IH, <- app_assoc. reflexivity.
    + apply IH.
Qed.

Lemma large_triggerb_spec (fn : Function) :
  large_triggerb fn = true <-> large_trigger fn.
Proof.
  unfold large_triggerb, large_trigger.
  rewrite orb_true_iff, Z.ltb_lt. reflexivity.
Qed.

(** ** The severity of a leak *)

Lemma calculateLeakSeverity_rule (leak : Leak) :
  severity_rule leak (calculateLeakSeverity leak).
Proof.
  unfold calculateLeakSeverity.
  destruct (Leak_IsSuspect leak) eqn:Hs; simpl.
  - destruct (Z.gtb_spec (Leak_LeakSize leak) 100000) as [H|H].
    + apply severity_Critical. split; [assumption | lia].
    + apply severity_High.
      * intros [_ H']. lia.
      * now left.
  - destruct (Z.gtb_spec (Leak_LeakSize leak) 50000) as [H|H].
    + apply severity_High.
      * intros [H' _]. congruence.
      * right. lia.
    + assert (Hc : ~ critical_rule leak) by (intros [H' _]; congruence).
      assert (Hh : ~ high_rule leak) by (intros [H'|H']; [congruence | lia]).
      destruct (Z.gtb_spec (Leak_LeakSize leak) 10000) as [H1|H1]; simpl.
      * apply severity_Medium; try assumption. left. lia.
      * destruct (Z.gtb_spec (Leak_LeakCount leak) 100) as [H2|H2].
        -- apply severity_Medium; try assumption. right. lia.
        -- apply severity_Low; try assumption.
           intros [H'|H']; lia.
Qed.

Lemma severity_rule_names (leak : Leak) (severity : string) :
  severity_rule leak severity ->
  In severity ["Critical"; "High"; "Medium"; "Low"].
Proof. destruct 1; simpl; auto. Qed.

(** The precedence table gives one severity. *)
Lemma severity_rule_functional (leak : Leak) (s1 s2 : string) :
  severity_rule leak s1 -> severity_rule leak s2 -> s1 = s2.
Proof. destruct 1; destruct 1; try reflexivity; contradiction. Qed.

(** ** The order of the leak issues *)

Lemma orderOf_severityRank (severity : string) :
  (let '(order, ok) := mapGet severityOrder severity in
   if negb ok then 999 else order) = severityRank severity.
Proof.
  unfold severityRank, severityOrder, mapGet.
  rewrite (String.eqb_sym "Critical"), (String.eqb_sym "High"),
    (String.eqb_sym "Medium"), (String.eqb_sym "Low").
  destruct (severity =? "Critical")%string; [reflexivity|].
  destruct (severity =? "High")%string; [reflexivity|].
  destruct (severity =? "Medium")%string; [reflexivity|].
  destruct (severity =? "Low")%string; reflexivity.
Qed.

Lemma lessIssue_spec (a b : MemoryIssue) :
  lessIssue a b =
  if negb (severityRank (Severity a) =? severityRank (Severity b))
  then severityRank (Severity a) <? severityRank (Severity b)
  else Size a >? Size b.
Proof.
  unfold lessIssue.
  rewrite <- (orderOf_severityRank (Severity a)),
    <- (orderOf_severityRank (Severity b)).
  destruct (mapGet severityOrder (Severity a)) as [oa ka].
  destruct (mapGet severityOrder (Severity b)) as [ob kb].
  reflexivity.
Qed.

Lemma lessIssue_asym (a b : MemoryIssue) :
  lessIssue a b = true -> lessIssue b a = false.
Proof.
  rewrite !lessIssue_spec.
  destruct (Z.eqb_spec (severityRank (Severity a)) (severityRank (Severity b)))
    as [E|E]; simpl.
  - rewrite E, Z.eqb_refl. simpl. rewrite !Z.gtb_ltb, Z.ltb_lt, Z.ltb_ge. lia.
  - destruct (Z.eqb_spec (severityRank (Severity b))
                (severityRank (Severity a))) as [E'|E']; [congruence|].
    simpl. rewrite Z.ltb_lt, Z.ltb_ge. lia.
Qed.

Lemma lessIssue_false (a b : MemoryIssue) :
  lessIssue b a = false ->
  severityRank (Severity a) <= severityRank (Severity b)
  /\ (severityRank (Severity a) = severityRank (Severity b) ->
      Size a >= Size b).
Proof.
  rewrite lessIssue_spec.
  destruct (Z.eqb_spec (severityRank (Severity b)) (severityRank (Severity a)))
    as [E|E]; simpl.
  - rewrite Z.gtb_ltb, Z.ltb_ge. lia.
  - rewrite Z.ltb_ge. lia.
Qed.

Lemma lessLeak_asym (a b : Leak) :
  lessLeak a b = true -> lessLeak b a = false.
Proof. unfold lessLeak. rewrite !Z.gtb_ltb, Z.ltb_lt, Z.ltb_ge. lia. Qed.

Lemma AnalyzeLeaks_perm (d : MemProData) :
  Permutation (AnalyzeLeaks (loaded d))
    (map leakIssue (filter kept (Leaks d))).
Proof.
  unfold AnalyzeLeaks, loaded; simpl.
  rewrite leaksLoop_spec. apply Slice_perm.
Qed.

Lemma AnalyzeLeaks_sorted (d : MemProData) :
  Sorted (not_before lessIssue) (AnalyzeLeaks (loaded d)).
Proof.
  unfold AnalyzeLeaks, loaded; simpl.
  apply Slice_sorted, lessIssue_asym.
Qed.

(** ** The loop of the top-leakers report *)

Lemma joined_app (xs ys : list string) :
  joined (xs ++ ys) = (joined xs ++ joined ys)%string.
Proof.
  induction xs as [|x xs IH]; simpl; [reflexivity|].
  unfold joined in *; simpl. now rewrite IH, append_assoc.
Qed.

Lemma leakerEntries_length (i : nat) (ranked : list Leak) :
  length (leakerEntries i ranked) = length ranked.
Proof.
  revert i. induction ranked as [|leak rest IH]; intros i; simpl;
    [reflexivity | now rewrite IH].
Qed.

Lemma leakersLoop_spec (rounds : nat) :
  forall (done todo : list Leak) (result : string),
    (rounds <= length todo)%nat ->
    leakersLoop (done ++ todo) (length done) rounds result
    = Ok (result ++ joined (leakerEntries (length done) (firstn rounds todo))).
Proof.
  induction rounds as [|rounds IH]; intros done todo result Hle; simpl.
  - now rewrite append_empty_r.
  - destruct todo as [|leak rest]; [simpl in Hle; lia|].
    rewrite nth_error_app2, Nat.sub_diag by lia. simpl.
    replace (done ++ leak :: rest)%list with ((done ++ [leak]) ++ rest)%list
      by (now rewrite <- app_assoc).
    replace (S (length done)) with (length (done ++ [leak])%list)
      by (rewrite length_app; simpl; lia).
    rewrite IH by (simpl in Hle; lia).
    rewrite append_assoc. unfold joined at 2. simpl.
    rewrite length_app, Nat.add_1_r. reflexivity.
Qed.

Lemma leakIssue_kept (leak leak' : Leak) :
  leakIssue leak' = leakIssue leak -> kept leak' = kept leak.
Proof.
  intros H. unfold kept.
  assert (Hs : Size (leakIssue leak') = Size (leakIssue leak)) by now rewrite H.
  assert (Hc : Count (leakIssue leak') = Count (leakIssue leak))
    by now rewrite H.
  simpl in Hs, Hc. now rewrite Hs, Hc.
Qed.

Lemma AnalyzeLeaks_In (d : MemProData) (issue : MemoryIssue) :
  In issue (AnalyzeLeaks (loaded d)) <->
  exists leak, In leak (Leaks d) /\ kept leak = true /\ issue = leakIssue leak.
Proof.
  split.
  - intros H. apply (Permutation_in _ (AnalyzeLeaks_perm d)) in H.
    apply in_map_iff in H as [leak [E H]]. apply filter_In in H as [H K].
    now exists leak.
  - intros [leak [H [K ->]]].
    apply (Permutation_in _ (Permutation_sym (AnalyzeLeaks_perm d))).
    apply in_map, filter_In. now split.
Qed.

(** ** The properties of the specification *)

(** C1. Every issue of [AnalyzeLeaks] is the issue of a leak record that
    is not skipped, and its severity is one of Critical, High, Medium,
    Low, the one the first matching rule of the precedence table gives
    for that record; every leak record that is not skipped has its issue
    in the result. *)
Theorem AnalyzeLeaks_severity (d : MemProData) :
  (forall issue, In issue (AnalyzeLeaks (loaded d)) ->
     In (Severity issue) ["Critical"; "High"; "Medium"; "Low"]
     /\ exists leak,
          In leak (Leaks d) /\ ~ skipped leak /\ issue = leakIssue leak
          /\ severity_rule leak (Severity issue))
  /\ (forall leak, In leak (Leaks d) -> ~ skipped leak ->
        In (leakIssue leak) (AnalyzeLeaks (loaded d))
        /\ severity_rule leak (Severity (leakIssue leak))).
Proof.
  split.
  - intros issue H. apply AnalyzeLeaks_In in H as [leak [H [K ->]]].
    pose proof (calculateLeakSeverity_rule leak) as R. split.
    + apply (severity_rule_names leak). exact R.
    + exists leak. repeat split; try assumption. now apply kept_not_skipped.
  - intros leak H K. split.
    + apply AnalyzeLeaks_In. exists leak. repeat split; try assumption.
      now apply kept_not_skipped.
    + apply calculateLeakSeverity_rule.
Qed.

Lemma AnalyzeLeaks_severity_witness :
  In (leakIssue mainLeak) (AnalyzeLeaks (loaded sampleData))
  /\ severity_rule mainLeak (Severity (leakIssue mainLeak)).
Proof.
  apply (proj2 (AnalyzeLeaks_severity sampleData) mainLeak).
  - simpl. auto.
  - unfold skipped. simpl. lia.
Defined.

(** C2. In the result of [AnalyzeLeaks], the severity rank of an element
    is at most the rank of the element after it, and when the two ranks
    are equal its size is at least the size of the element after it. *)
Theorem AnalyzeLeaks_ordered (d : MemProData) (i : nat) (a b : MemoryIssue) :
  nth_error (AnalyzeLeaks (loaded d)) i = Some a ->
  nth_error (AnalyzeLeaks (loaded d)) (S i) = Some b ->
  severityRank (Severity a) <= severityRank (Severity b)
  /\ (severityRank (Severity a) = severityRank (Severity b) ->
      Size a >= Size b).
Proof.
  intros Ha Hb. apply lessIssue_false.
  exact (Sorted_nth_error _ _ (AnalyzeLeaks_sorted d) i a b Ha Hb).
Qed.

Lemma AnalyzeLeaks_ordered_witness :
  severityRank (Severity (leakIssue mainLeak))
  <= severityRank (Severity (leakIssue vectorLeak))
  /\ (severityRank (Severity (leakIssue mainLeak))
      = severityRank (Severity (leakIssue vectorLeak)) ->
      Size (leakIssue mainLeak) >= Size (leakIssue vectorLeak)).
Proof.
  apply (AnalyzeLeaks_ordered sampleData 0); reflexivity.
Defined.

(** C3. [AnalyzeFragmentation] returns one High issue when the
    fragmentation is greater than 80.0, one Medium issue when it is
    greater than 50.0 and not greater than 80.0, and no issue otherwise;
    at exactly 80.0 the issue is Medium and at exactly 50.0 there is
    none. *)
Theorem AnalyzeFragmentation_bands (d : MemProData) :
  ((80.0 <? MemoryFragmentation d)%float = true ->
     exists issue,
       AnalyzeFragmentation (loaded d) = [issue] /\ Severity issue = "High")
  /\ ((80.0 <? MemoryFragmentation d)%float = false ->
      (50.0 <? MemoryFragmentation d)%float = true ->
      exists issue,
        AnalyzeFragmentation (loaded d) = [issue]
        /\ Severity issue = "Medium")
  /\ ((80.0 <? MemoryFragmentation d)%float = false ->
      (50.0 <? MemoryFragmentation d)%float = false ->
      AnalyzeFragmentation (loaded d) = [])
  /\ (MemoryFragmentation d = 80.0%float ->
      exists issue,
        AnalyzeFragmentation (loaded d) = [issue]
        /\ Severity issue = "Medium")
  /\ (MemoryFragmentation d = 50.0%float ->
      AnalyzeFragmentation (loaded d) = []).
Proof.
  unfold AnalyzeFragmentation, loaded; simpl.
  repeat split.
  - intros H. rewrite H. eexists. split; reflexivity.
  - intros H H'. rewrite H, H'. eexists. split; reflexivity.
  - intros H H'. rewrite H, H'. reflexivity.
  - intros H. rewrite H.
    change (80.0 <? 80.0)%float with false.
    change (50.0 <? 80.0)%float with true.
    eexists. split; reflexivity.
  - intros H. rewrite H.
    change (80.0 <? 50.0)%float with false.
    change (50.0 <? 50.0)%float with false.
    reflexivity.
Qed.

Lemma AnalyzeFragmentation_bands_witness :
  (exists issue,
     AnalyzeFragmentation (loaded (fragmented 80.5)) = [issue]
     /\ Severity issue = "High")
  /\ (exists issue,
        AnalyzeFragmentation (loaded (fragmented 80.0)) = [issue]
        /\ Severity issue = "Medium")
  /\ (exists issue,
        AnalyzeFragmentation (loaded (fragmented 50.5)) = [issue]
        /\ Severity issue = "Medium")
  /\ AnalyzeFragmentation (loaded (fragmented 50.0)) = []
  /\ AnalyzeFragmentation (loaded (fragmented nan)) = [].
Proof.
  split; [|split; [|split; [|split]]].
  - apply (proj1 (AnalyzeFragmentation_bands (fragmented 80.5))).
    reflexivity.
  - apply (proj1 (proj2 (proj2 (proj2
             (AnalyzeFragmentation_bands (fragmented 80.0)))))).
    reflexivity.
  - apply (proj1 (proj2 (AnalyzeFragmentation_bands (fragmented 50.5))));
      reflexivity.
  - apply (proj2 (proj2 (proj2 (proj2
             (AnalyzeFragmentation_bands (fragmented 50.0)))))).
    reflexivity.
  - apply (proj1 (proj2 (proj2
             (AnalyzeFragmentation_bands (fragmented nan)))));
      reflexivity.
Defined.

(** C5. A leak record whose leaked bytes and leaked count are both zero
    has no issue in the result of [AnalyzeLeaks], whatever its other
    fields: its issue is not in the result, and the result is the one of
    the document without the record. *)
Theorem AnalyzeLeaks_skips_zero (d : MemProData) (leak : Leak) :
  Leak_LeakSize leak = 0 -> Leak_LeakCount leak = 0 ->
  ~ In (leakIssue leak) (AnalyzeLeaks (loaded d))
  /\ (forall before after,
        Leaks d = (before ++ leak :: after)%list ->
        AnalyzeLeaks (loaded d)
        = AnalyzeLeaks (loaded (withLeaks d (before ++ after)))).
Proof.
  intros Hs Hc.
  assert (K : kept leak = false) by (apply kept_skipped; now split).
  split.
  - intros H. apply AnalyzeLeaks_In in H as [leak' [_ [K' E]]].
    symmetry in E. apply leakIssue_kept in E. congruence.
  - intros before after E. unfold AnalyzeLeaks, loaded; simpl.
    rewrite E, !leaksLoop_spec, !filter_app. simpl. now rewrite K.
Qed.

Lemma AnalyzeLeaks_skips_zero_witness :
  ~ In (leakIssue emptyLeak) (AnalyzeLeaks (loaded sampleData))
  /\ AnalyzeLeaks (loaded sampleData)
     = AnalyzeLeaks
         (loaded (withLeaks sampleData [unknownLeak; mainLeak; vectorLeak])).
Proof.
  destruct (AnalyzeLeaks_skips_zero sampleData emptyLeak) as [H1 H2];
    try reflexivity.
  split; [exact H1|].
  apply (H2 [unknownLeak] [mainLeak; vectorLeak]). reflexivity.
Defined.

(** C6. [AnalyzeLargeAllocations] emits one issue for each function
    whose average size is over 10,000 bytes or whose max size is over
    50,000 bytes, and for no other, in the order of the function list;
    the severity of the issue is High when the max size is over 100,000
    bytes and Medium when it is not. *)
Theorem AnalyzeLargeAllocations_spec (d : MemProData) :
  AnalyzeLargeAllocations (loaded d)
  = map largeAllocationIssue (filter large_triggerb (Functions d))
  /\ (forall fn, large_triggerb fn = true <-> large_trigger fn)
  /\ (forall fn,
        Severity (largeAllocationIssue fn) = "High"
        <-> 100000 < Function_MaxSize fn)
  /\ (forall fn,
        Severity (largeAllocationIssue fn) = "Medium"
        <-> ~ 100000 < Function_MaxSize fn).
Proof.
  split; [|split; [|split]].
  - unfold AnalyzeLargeAllocations, loaded; simpl. now rewrite largeLoop_spec.
  - apply large_triggerb_spec.
  - intros fn. unfold largeAllocationIssue; simpl.
    destruct (Z.gtb_spec (Function_MaxSize fn) 100000); split;
      try reflexivity; try discriminate; lia.
  - intros fn. unfold largeAllocationIssue; simpl.
    destruct (Z.gtb_spec (Function_MaxSize fn) 100000); split;
      try reflexivity; try discriminate; lia.
Qed.

Lemma AnalyzeLargeAllocations_spec_witness :
  AnalyzeLargeAllocations (loaded sampleData)
  = [largeAllocationIssue bigFunction]
  /\ Severity (largeAllocationIssue bigFunction) = "High"
  /\ Severity (largeAllocationIssue smallFunction) = "Medium".
Proof.
  split; [|split].
  - rewrite (proj1 (AnalyzeLargeAllocations_spec sampleData)). reflexivity.
  - apply (proj1 (proj2 (proj2 (AnalyzeLargeAllocations_spec sampleData)))).
    simpl. lia.
  - apply (proj2 (proj2 (proj2 (AnalyzeLargeAllocations_spec sampleData)))).
    simpl. lia.
Defined.

(** C10. On an analyzer with no loaded data, a nil analyzer or one whose
    data is nil, [AnalyzeLeaks], [AnalyzeFragmentation] and
    [AnalyzeLargeAllocations] return no issue, and [GetSummary] and
    [GetTopLeakers] return the string "Error: No data available for
    analysis"; none of them panics. *)
Theorem no_data_available (ma : option MemoryAnalyzer) (n : Z) :
  ma = None \/ ma = Some (mkMemoryAnalyzer None) ->
  AnalyzeLeaks ma = []
  /\ AnalyzeFragmentation ma = []
  /\ AnalyzeLargeAllocations ma = []
  /\ GetSummary ma = "Error: No data available for analysis"
  /\ GetTopLeakers ma n = Ok "Error: No data available for analysis".
Proof.
  intros [-> | ->]; repeat split.
Qed.

Lemma no_data_available_witness :
  (AnalyzeLeaks None = []
   /\ AnalyzeFragmentation None = []
   /\ AnalyzeLargeAllocations None = []
   /\ GetSummary None = "Error: No data available for analysis"
   /\ GetTopLeakers None 10 = Ok "Error: No data available for analysis")
  /\ (AnalyzeLeaks (Some (mkMemoryAnalyzer None)) = []
      /\ AnalyzeFragmentation (Some (mkMemoryAnalyzer None)) = []
      /\ AnalyzeLargeAllocations (Some (mkMemoryAnalyzer None)) = []
      /\ GetSummary (Some (mkMemoryAnalyzer None))
         = "Error: No data available for analysis"
      /\ GetTopLeakers (Some (mkMemoryAnalyzer None)) 10
         = Ok "Error: No data available for analysis").
Proof.
  split.
  - apply (no_data_available None 10). left. reflexivity.
  - apply (no_data_available (Some (mkMemoryAnalyzer None)) 10).
    right. reflexivity.
Defined.

Lemma fmt_f_zero : fmt_f 2 0%float = "0.00".
Proof. reflexivity. Qed.

Lemma GetSummary_unfold (d : MemProData) :
  GetSummary (loaded d)
  = let pct := if TotalSize d >? 0 then leakPercentageOf d else 0%float in
    (summaryHead d ++ "Leak Percentage: " ++ fmt_f 2 pct ++ "%" ++ nl ++
     summaryTail d pct)%string.
Proof.
  unfold GetSummary, loaded, summaryHead, summaryTail, summaryFindings,
    leakPercentageOf; cbv beta iota zeta delta [data].
  destruct (TotalSize d >? 0);
    match goal with |- context [(50 <? ?p)%float] =>
      destruct (50 <? p)%float end;
    destruct (80 <? MemoryFragmentation d)%float;
    destruct (suspectLoop (Leaks d) 0 >? 0);
    repeat rewrite append_assoc; rewrite ?append_empty_r; reflexivity.
Qed.

(** C7. When the total size is zero, [GetSummary] returns (it is a total
    function: nothing in it can fail) a summary whose leak percentage
    line reads 0.00%; when the total size is positive, the line shows
    the binary64 value of leaked bytes divided by total bytes, times
    100, with two decimals. *)
Theorem GetSummary_leak_percentage (d : MemProData) :
  (TotalSize d = 0 ->
     GetSummary (loaded d)
     = (summaryHead d ++ "Leak Percentage: 0.00%" ++ nl ++
        summaryTail d 0%float)%string)
  /\ (0 < TotalSize d ->
      GetSummary (loaded d)
      = (summaryHead d ++
         "Leak Percentage: " ++ fmt_f 2 (leakPercentageOf d) ++ "%" ++ nl ++
         summaryTail d (leakPercentageOf d))%string).
Proof.
  rewrite GetSummary_unfold. split; intros H.
  - destruct (Z.gtb_spec (TotalSize d) 0); [lia|].
    cbv zeta. rewrite fmt_f_zero. reflexivity.
  - destruct (Z.gtb_spec (TotalSize d) 0); [reflexivity | lia].
Qed.

Lemma GetSummary_leak_percentage_witness :
  GetSummary (loaded zeroTotal)
  = (summaryHead zeroTotal ++ "Leak Percentage: 0.00%" ++ nl ++
     summaryTail zeroTotal 0%float)%string
  /\ GetSummary (loaded sampleData)
     = (summaryHead sampleData ++
        "Leak Percentage: " ++ "60.00" ++ "%" ++ nl ++
        summaryTail sampleData 60%float)%string.
Proof.
  split.
  - apply (proj1 (GetSummary_leak_percentage zeroTotal)). reflexivity.
  - apply (proj2 (GetSummary_leak_percentage sampleData)). simpl. lia.
Defined.

Lemma Sorted_weaken {A : Type} (R R' : A -> A -> Prop) (l : list A) :
  (forall a b, R a b -> R' a b) -> Sorted R l -> Sorted R' l.
Proof.
  intros HR. induction 1 as [|x l Hs IH Hhd]; constructor; [assumption|].
  destruct Hhd; constructor. now apply HR.
Qed.

Lemma ranked_size_desc (leaks : list Leak) :
  StronglySorted size_desc (Slice lessLeak leaks).
Proof.
  apply Sorted_StronglySorted.
  - intros a b c. unfold size_desc. lia.
  - apply (Sorted_weaken (not_before lessLeak)).
    + intros a b. unfold not_before, lessLeak, size_desc.
      rewrite Z.gtb_ltb, Z.ltb_ge. lia.
    + apply Slice_sorted, lessLeak_asym.
Qed.

Lemma GetTopLeakers_unfold (d : MemProData) (n : Z) :
  GetTopLeakers (loaded d) n
  = let ranked := Slice lessLeak (Leaks d) in
    let n := if n >? Z.of_nat (length ranked)
             then Z.of_nat (length ranked) else n in
    leakersLoop ranked 0 (Z.to_nat n) (leakersHeader n).
Proof.
  unfold GetTopLeakers, loaded, leakersHeader;
    cbv beta iota zeta delta [data].
  rewrite !append_assoc. reflexivity.
Qed.

(** *** The loop body writes the entry as it is to read *)

Lemma prefix_cancel (a b c : string) :
  String.prefix (a ++ b) (a ++ c) = String.prefix b c.
Proof.
  induction a as [|ch a IH]; simpl; [reflexivity|].
  destruct (ascii_dec ch ch) as [_|N]; [exact IH | now elim N].
Qed.

Lemma prefix_of_append (s rest : string) :
  String.prefix s (s ++ rest) = true.
Proof.
  induction s as [|c s IH]; simpl.
  - now destruct rest.
  - destruct (ascii_dec c c) as [_|N]; [exact IH | now elim N].
Qed.

Lemma leakerEntry_entryText (i : Z) (leak : Leak) :
  leakerEntry i leak = entryText (i + 1) leak.
Proof.
  unfold leakerEntry, entryText, entryLines, fmt_v.
  destruct (String.eqb (Leak_FileName leak) "");
    destruct (String.eqb (Leak_CallStack leak) "");
    cbn [negb List.app unlines]; repeat rewrite append_assoc; reflexivity.
Qed.

Lemma leakerEntries_reportEntries (ranked : list Leak) (i : nat) :
  leakerEntries i ranked = reportEntries (Z.of_nat i + 1) ranked.
Proof.
  revert i. induction ranked as [|leak rest IH]; intros i; simpl;
    [reflexivity|].
  rewrite leakerEntry_entryText, IH. do 2 f_equal. lia.
Qed.

Lemma reportEntries_length (rank : Z) (ranked : list Leak) :
  length (reportEntries rank ranked) = length ranked.
Proof.
  revert rank. induction ranked as [|leak rest IH]; intros rank; simpl;
    [reflexivity | now rewrite IH].
Qed.

Lemma entryText_shows (rank : Z) (leak : Leak) :
  shows rank leak (entryText rank leak).
Proof.
  unfold shows, entryText, entryLines. cbn [List.app unlines].
  repeat rewrite append_assoc.
  repeat rewrite prefix_cancel. apply prefix_of_append.
Qed.

Lemma reportEntries_all_shown (ranked : list Leak) (rank : Z) :
  all_shown rank ranked (reportEntries rank ranked).
Proof.
  revert rank. induction ranked as [|leak rest IH]; intros rank; simpl;
    [exact I|].
  split; [apply entryText_shows | apply IH].
Qed.

(** The report of [GetTopLeakers] on a loaded document, read off the
    code: the header for the count cut down to the number of records,
    then the entries of the first records in the order of the sort. *)
Lemma GetTopLeakers_text (d : MemProData) (n : Z) :
  GetTopLeakers (loaded d) n
  = Ok ("Top " ++ fmt_d (Z.min n (Z.of_nat (length (Leaks d)))) ++
        " Memory Leakers:" ++ nl ++ "====================" ++ nl ++ nl ++
        joined
          (reportEntries 1
             (firstn (Z.to_nat (Z.min n (Z.of_nat (length (Leaks d)))))
                (Slice lessLeak (Leaks d)))))%string.
Proof.
  pose proof (Slice_length lessLeak (Leaks d)) as L.
  rewrite GetTopLeakers_unfold; cbv zeta. rewrite L.
  assert (E : (if n >? Z.of_nat (length (Leaks d))
               then Z.of_nat (length (Leaks d)) else n)
              = Z.min n (Z.of_nat (length (Leaks d)))).
  { destruct (Z.gtb_spec n (Z.of_nat (length (Leaks d)))); lia. }
  rewrite E.
  rewrite (leakersLoop_spec _ [] (Slice lessLeak (Leaks d))) by lia.
  cbn [length]. rewrite leakerEntries_reportEntries.
  unfold leakersHeader. repeat rewrite append_assoc. reflexivity.
Qed.

(** C8. For a count above the number of leak records, [GetTopLeakers]
    returns, without a panic, a report under a header naming the number
    of the records, with exactly one entry for each leak record and no
    other: the entries are those of the records in descending order of
    leaked bytes, each showing its place from 1 on, the function name
    and the leaked bytes of its record. *)
Theorem GetTopLeakers_clamps (d : MemProData) (n : Z) :
  Z.of_nat (length (Leaks d)) < n ->
  exists ranked,
    Permutation ranked (Leaks d)
    /\ StronglySorted size_desc ranked
    /\ GetTopLeakers (loaded d) n
       = Ok ("Top " ++ fmt_d (Z.of_nat (length (Leaks d))) ++
             " Memory Leakers:" ++ nl ++ "====================" ++ nl ++ nl ++
             joined (reportEntries 1 ranked))%string
    /\ length (reportEntries 1 ranked) = length (Leaks d)
    /\ all_shown 1 ranked (reportEntries 1 ranked).
Proof.
  intros Hn. exists (Slice lessLeak (Leaks d)).
  pose proof (Slice_length lessLeak (Leaks d)) as L.
  split; [apply Slice_perm|]. split; [apply ranked_size_desc|].
  split; [|split].
  - rewrite GetTopLeakers_text.
    replace (Z.min n (Z.of_nat (length (Leaks d))))
      with (Z.of_nat (length (Leaks d))) by lia.
    rewrite Nat2Z.id, <- L, firstn_all. reflexivity.
  - now rewrite reportEntries_length.
  - apply reportEntries_all_shown.
Qed.

Lemma GetTopLeakers_clamps_witness :
  exists ranked,
    Permutation ranked (Leaks sampleData)
    /\ StronglySorted size_desc ranked
    /\ GetTopLeakers (loaded sampleData) 10
       = Ok ("Top " ++ fmt_d (Z.of_nat (length (Leaks sampleData))) ++
             " Memory Leakers:" ++ nl ++ "====================" ++ nl ++ nl ++
             joined (reportEntries 1 ranked))%string
    /\ length (reportEntries 1 ranked) = length (Leaks sampleData)
    /\ all_shown 1 ranked (reportEntries 1 ranked).
Proof.
  apply (GetTopLeakers_clamps sampleData 10). simpl. lia.
Defined.

(** C4, as the code has it. For a count of zero or less, [GetTopLeakers]
    returns, without a panic, a report that is its header alone, with no
    entry; the header names the count as it was passed, so it reads
    "Top 0" for a count of zero and shows the negative number for a
    negative count. *)
Theorem GetTopLeakers_nonpositive (d : MemProData) (n : Z) :
  n <= 0 ->
  GetTopLeakers (loaded d) n
  = Ok ("Top " ++ fmt_d n ++ " Memory Leakers:" ++ nl ++
        "====================" ++ nl ++ nl)%string.
Proof.
  intros Hn. rewrite GetTopLeakers_unfold; cbv zeta.
  destruct (Z.gtb_spec n (Z.of_nat (length (Slice lessLeak (Leaks d)))));
    [lia|].
  replace (Z.to_nat n) with O by lia. reflexivity.
Qed.

Lemma GetTopLeakers_nonpositive_witness :
  GetTopLeakers (loaded sampleData) 0
  = Ok ("Top 0 Memory Leakers:" ++ nl ++
        "====================" ++ nl ++ nl)%string.
Proof.
  apply (GetTopLeakers_nonpositive sampleData 0). lia.
Defined.

(** A negative count against the zero-count header: for a count of -1
    the header reads "Top -1", not "Top 0". *)
Lemma GetTopLeakers_negative_count :
  -1 <= 0
  /\ GetTopLeakers (loaded sampleData) (-1)
     = Ok ("Top -1 Memory Leakers:" ++ nl ++
           "====================" ++ nl ++ nl)%string
  /\ Contains ("Top -1 Memory Leakers:" ++ nl ++
               "====================" ++ nl ++ nl) "Top 0" = false
  /\ GetTopLeakers (loaded sampleData) (-1) <> Ok (leakersHeader 0).
Proof.
  split; [lia|]. split; [reflexivity|]. split; [reflexivity|].
  discriminate.
Qed.

(** C9. A document whose only leak record is "Unknown Function at
    0x1234" with 5000 leaked bytes in 1 allocation and no suspect flag
    gives one issue, of severity Low, whose description mentions missing
    debug symbols and whose suggestion is to enable debug symbols; and
    for every leak record whose function name contains "Unknown
    Function" the suggestion is that one, whatever other marker the name
    contains. *)
Theorem unknown_function_leak :
  (forall d file line score stack,
     Leaks d
     = [mkLeak "Unknown Function at 0x1234" file line 5000 1 score stack
          false] ->
     exists issue,
       AnalyzeLeaks (loaded d) = [issue]
       /\ Severity issue = "Low"
       /\ Description issue
          = "Unknown function leaked 5000 bytes across 1 allocations. This may indicate missing debug symbols or dynamically loaded code."
       /\ Contains (Description issue) "missing debug symbols" = true
       /\ Suggestion issue = debugSymbolsSuggestion
       /\ Contains (Suggestion issue) "Enable debug symbols" = true)
  /\ (forall leak,
        Contains (Leak_FunctionName leak) "Unknown Function" = true ->
        generateLeakSuggestion leak = debugSymbolsSuggestion
        /\ Suggestion (leakIssue leak) = debugSymbolsSuggestion).
Proof.
  split.
  - intros d file line score stack H.
    unfold AnalyzeLeaks, loaded; cbv beta iota zeta delta [data].
    rewrite H. eexists. split; [reflexivity|].
    repeat split.
  - intros leak H. unfold leakIssue, generateLeakSuggestion; simpl.
    rewrite H. split; reflexivity.
Qed.

Lemma unknown_function_leak_witness :
  (exists issue,
     AnalyzeLeaks (loaded zeroTotal) = [issue]
     /\ Severity issue = "Low"
     /\ Description issue
        = "Unknown function leaked 5000 bytes across 1 allocations. This may indicate missing debug symbols or dynamically loaded code."
     /\ Contains (Description issue) "missing debug symbols" = true
     /\ Suggestion issue = debugSymbolsSuggestion
     /\ Contains (Suggestion issue) "Enable debug symbols" = true)
  /\ (Contains (Leak_FunctionName mixedLeak) "std::vector" = true
      /\ Contains (Leak_FunctionName mixedLeak) "main" = true
      /\ generateLeakSuggestion mixedLeak = debugSymbolsSuggestion
      /\ Suggestion (leakIssue mixedLeak) = debugSymbolsSuggestion).
Proof.
  split.
  - apply (proj1 unknown_function_leak zeroTotal "" 0 0%float "").
    reflexivity.
  - split; [reflexivity|]. split; [reflexivity|].
    apply (proj2 unknown_function_leak mixedLeak). reflexivity.
Defined.

(** ** Further properties of the analyzer *)

Lemma severityRank_names :
  severityRank "Critical" = 0 /\ severityRank "High" = 1
  /\ severityRank "Medium" = 2 /\ severityRank "Low" = 3.
Proof. repeat split. Qed.

(** X1. The severity of a leak is monotone: setting the suspect flag,
    or raising the leaked bytes or the leaked count, never gives a
    severity of a later rank. *)
Theorem calculateLeakSeverity_monotone (leak leak' : Leak) :
  (Leak_IsSuspect leak = true -> Leak_IsSuspect leak' = true) ->
  Leak_LeakSize leak <= Leak_LeakSize leak' ->
  Leak_LeakCount leak <= Leak_LeakCount leak' ->
  severityRank (calculateLeakSeverity leak')
  <= severityRank (calculateLeakSeverity leak).
Proof.
  intros Hflag Hsize Hcount. unfold calculateLeakSeverity.
  destruct severityRank_names as [Ec [Eh [Em El]]].
  destruct (Leak_IsSuspect leak) eqn:Hs.
  - rewrite (Hflag eq_refl). simpl.
    destruct (Z.gtb_spec (Leak_LeakSize leak) 100000);
      destruct (Z.gtb_spec (Leak_LeakSize leak') 100000);
      rewrite ?Ec, ?Eh; lia.
  - destruct (Leak_IsSuspect leak'); simpl;
      destruct (Z.gtb_spec (Leak_LeakSize leak) 50000);
      destruct (Z.gtb_spec (Leak_LeakSize leak') 50000);
      destruct (Z.gtb_spec (Leak_LeakSize leak) 10000);
      destruct (Z.gtb_spec (Leak_LeakSize leak') 10000);
      destruct (Z.gtb_spec (Leak_LeakSize leak') 100000);
      destruct (Z.gtb_spec (Leak_LeakCount leak) 100);
      destruct (Z.gtb_spec (Leak_LeakCount leak') 100);
      simpl; rewrite ?Ec, ?Eh, ?Em, ?El; lia.
Qed.

Lemma calculateLeakSeverity_monotone_witness :
  severityRank (calculateLeakSeverity mainLeak)
  <= severityRank (calculateLeakSeverity unknownLeak).
Proof.
  apply (calculateLeakSeverity_monotone unknownLeak mainLeak).
  - discriminate.
  - simpl. lia.
  - simpl. lia.
Defined.

(** X2. The severity of a leak issue bounds its size and count: a
    Critical issue has more than 100,000 bytes, a Medium one at most
    50,000 bytes and more than 10,000 bytes or more than 100
    allocations, a Low one at most 10,000 bytes and at most 100
    allocations. *)
Theorem AnalyzeLeaks_severity_bounds (d : MemProData) (issue : MemoryIssue) :
  In issue (AnalyzeLeaks (loaded d)) ->
  (Severity issue = "Critical" -> 100000 < Size issue)
  /\ (Severity issue = "Medium" ->
      Size issue <= 50000 /\ (10000 < Size issue \/ 100 < Count issue))
  /\ (Severity issue = "Low" -> Size issue <= 10000 /\ Count issue <= 100).
Proof.
  intros H. apply AnalyzeLeaks_In in H as [leak [_ [_ ->]]].
  pose proof (calculateLeakSeverity_rule leak) as R. simpl.
  split; [|split]; intros E; rewrite E in R; inversion R;
    unfold critical_rule, high_rule, medium_rule in *; lia.
Qed.

Lemma AnalyzeLeaks_severity_bounds_witness :
  (Severity (leakIssue unknownLeak) = "Critical" ->
   100000 < Size (leakIssue unknownLeak))
  /\ (Severity (leakIssue unknownLeak) = "Medium" ->
      Size (leakIssue unknownLeak) <= 50000
      /\ (10000 < Size (leakIssue unknownLeak)
          \/ 100 < Count (leakIssue unknownLeak)))
  /\ (Severity (leakIssue unknownLeak) = "Low" ->
      Size (leakIssue unknownLeak) <= 10000
      /\ Count (leakIssue unknownLeak) <= 100).
Proof.
  apply (AnalyzeLeaks_severity_bounds sampleData (leakIssue unknownLeak)).
  simpl. auto.
Defined.

Lemma key_le_trans (k1 k2 k3 : Z * Z) :
  key_le k1 k2 -> key_le k2 k3 -> key_le k1 k3.
Proof. unfold key_le. lia. Qed.

Lemma key_le_antisym (k1 k2 : Z * Z) :
  key_le k1 k2 -> key_le k2 k1 -> k1 = k2.
Proof.
  destruct k1 as [r1 s1], k2 as [r2 s2]. unfold key_le; simpl.
  intros H1 H2. f_equal; lia.
Qed.

Lemma AnalyzeLeaks_keys_sorted (d : MemProData) :
  StronglySorted key_le (map issueKey (AnalyzeLeaks (loaded d))).
Proof.
  apply Sorted_StronglySorted; [exact key_le_trans|].
  pose proof (AnalyzeLeaks_sorted d) as H.
  induction H as [|x l Hs IH Hhd]; simpl; constructor; [assumption|].
  destruct Hhd as [|y l' Hxy]; simpl; constructor.
  apply lessIssue_false in Hxy. unfold key_le, issueKey; simpl. lia.
Qed.

Lemma StronglySorted_nth_error {A : Type} (R : A -> A -> Prop) (l : list A) :
  StronglySorted R l ->
  forall i j a b,
    (i < j)%nat -> nth_error l i = Some a -> nth_error l j = Some b -> R a b.
Proof.
  induction 1 as [|x l Hs IH Hall]; intros i j a b Hij Ha Hb.
  - destruct i; discriminate.
  - destruct j as [|j]; [lia|]. simpl in Hb. destruct i as [|i]; simpl in Ha.
    + injection Ha as <-. apply nth_error_In in Hb.
      rewrite Forall_forall in Hall. now apply Hall.
    + apply (IH i j); [lia | assumption | assumption].
Qed.

(** X3. The result of [AnalyzeLeaks] is in order as a whole, not only
    pair by pair: an issue has a rank at most that of every issue after
    it, and at equal rank a size at least as large; so the first issue
    is one of the most severe. *)
Theorem AnalyzeLeaks_ordered_globally (d : MemProData) (i j : nat)
    (a b : MemoryIssue) :
  (i < j)%nat ->
  nth_error (AnalyzeLeaks (loaded d)) i = Some a ->
  nth_error (AnalyzeLeaks (loaded d)) j = Some b ->
  severityRank (Severity a) <= severityRank (Severity b)
  /\ (severityRank (Severity a) = severityRank (Severity b) ->
      Size a >= Size b).
Proof.
  intros Hij Ha Hb.
  assert (K : key_le (issueKey a) (issueKey b)).
  { apply (StronglySorted_nth_error _ _ (AnalyzeLeaks_keys_sorted d) i j);
      [assumption | |]; rewrite nth_error_map.
    - now rewrite Ha.
    - now rewrite Hb. }
  unfold key_le, issueKey in K; simpl in K. lia.
Qed.

Lemma AnalyzeLeaks_ordered_globally_witness :
  severityRank (Severity (leakIssue mainLeak))
  <= severityRank (Severity (leakIssue unknownLeak))
  /\ (severityRank (Severity (leakIssue mainLeak))
      = severityRank (Severity (leakIssue unknownLeak)) ->
      Size (leakIssue mainLeak) >= Size (leakIssue unknownLeak)).
Proof.
  apply (AnalyzeLeaks_ordered_globally sampleData 0 2);
    [lia | reflexivity | reflexivity].
Defined.

(** X4. [AnalyzeLeaks] returns as many issues as there are leak records
    with leaked bytes or a leaked count other than zero, never more
    than there are records, and none exactly when every record has
    both at zero. *)
Theorem AnalyzeLeaks_length (d : MemProData) :
  length (AnalyzeLeaks (loaded d)) = length (filter kept (Leaks d))
  /\ (length (AnalyzeLeaks (loaded d)) <= length (Leaks d))%nat
  /\ (AnalyzeLeaks (loaded d) = [] <-> Forall skipped (Leaks d)).
Proof.
  assert (L : length (AnalyzeLeaks (loaded d))
              = length (filter kept (Leaks d))).
  { rewrite (Permutation_length (AnalyzeLeaks_perm d)). apply length_map. }
  split; [exact L|]. split.
  - rewrite L. apply filter_length_le.
  - split.
    + intros E. apply Forall_forall. intros leak Hin.
      apply kept_skipped. destruct (kept leak) eqn:K; [|reflexivity].
      assert (Hi : In (leakIssue leak) (AnalyzeLeaks (loaded d)))
        by (apply AnalyzeLeaks_In; now exists leak).
      rewrite E in Hi. destruct Hi.
    + intros Hall. apply length_zero_iff_nil. rewrite L.
      apply length_zero_iff_nil.
      rewrite Forall_forall in Hall.
      destruct (filter kept (Leaks d)) as [|leak rest] eqn:E; [reflexivity|].
      assert (Hin : In leak (filter kept (Leaks d))) by (rewrite E; now left).
      apply filter_In in Hin as [Hin K].
      apply Hall, kept_skipped in Hin. congruence.
Qed.

Lemma filter_perm {A : Type} (f : A -> bool) (l l' : list A) :
  Permutation l l' -> Permutation (filter f l) (filter f l').
Proof.
  induction 1 as [|x l l' H IH|x y l|l l' l'' H1 IH1 H2 IH2]; simpl.
  - constructor.
  - destruct (f x); [now constructor | assumption].
  - destruct (f x), (f y); try reflexivity. apply perm_swap.
  - now transitivity (filter f l').
Qed.

(** Two lists in order that hold the same elements are the same list,
    when the order is antisymmetric. *)
Lemma sorted_perm_unique {A : Type} (R : A -> A -> Prop) :
  (forall a b, R a b -> R b a -> a = b) ->
  forall l l',
    StronglySorted R l -> StronglySorted R l' -> Permutation l l' -> l = l'.
Proof.
  intros Hanti. induction l as [|x l IH]; intros l' Hs Hs' Hp.
  - apply Permutation_nil in Hp. now subst.
  - destruct l' as [|y l'].
    + symmetry in Hp. now apply Permutation_nil in Hp.
    + apply StronglySorted_inv in Hs as [Hs Hx].
      apply StronglySorted_inv in Hs' as [Hs' Hy].
      rewrite Forall_forall in Hx, Hy.
      assert (E : x = y).
      { assert (Hxin : In x (y :: l'))
          by (apply (Permutation_in _ Hp); now left).
        assert (Hyin : In y (x :: l))
          by (apply (Permutation_in _ (Permutation_sym Hp)); now left).
        destruct Hxin as [E|Hxin]; [now symmetry|].
        destruct Hyin as [E|Hyin]; [assumption|].
        apply Hanti; [now apply Hx | now apply Hy]. }
      subst y. f_equal. apply IH; try assumption.
      now apply Permutation_cons_inv in Hp.
Qed.

(** X5. The severities and sizes of the result of [AnalyzeLeaks], in
    their order, do not depend on the order of the leak records in the
    document: two documents with the same records in another order give
    the same sequence of ranks and sizes, and results that are
    permutations of each other. *)
Theorem AnalyzeLeaks_order_independent (d d' : MemProData) :
  Permutation (Leaks d) (Leaks d') ->
  Permutation (AnalyzeLeaks (loaded d)) (AnalyzeLeaks (loaded d'))
  /\ map issueKey (AnalyzeLeaks (loaded d))
     = map issueKey (AnalyzeLeaks (loaded d')).
Proof.
  intros Hp.
  assert (P : Permutation (AnalyzeLeaks (loaded d))
                (AnalyzeLeaks (loaded d'))).
  { rewrite (AnalyzeLeaks_perm d), (AnalyzeLeaks_perm d').
    now apply Permutation_map, filter_perm. }
  split; [exact P|].
  apply (sorted_perm_unique key_le key_le_antisym).
  - apply AnalyzeLeaks_keys_sorted.
  - apply AnalyzeLeaks_keys_sorted.
  - now apply Permutation_map.
Qed.

Lemma AnalyzeLeaks_order_independent_witness :
  Permutation (AnalyzeLeaks (loaded sampleData))
    (AnalyzeLeaks
       (loaded
          (withLeaks sampleData
             [emptyLeak; unknownLeak; mainLeak; vectorLeak])))
  /\ map issueKey (AnalyzeLeaks (loaded sampleData))
     = map issueKey
         (AnalyzeLeaks
            (loaded
               (withLeaks sampleData
                  [emptyLeak; unknownLeak; mainLeak; vectorLeak]))).
Proof.
  apply (AnalyzeLeaks_order_independent sampleData
           (withLeaks sampleData
              [emptyLeak; unknownLeak; mainLeak; vectorLeak])).
  simpl. apply perm_swap.
Defined.

(** X6. The description and the suggestion of a leak issue agree on the
    unknown-symbol marker: the description is the one that begins
    "Unknown function" exactly when the suggestion is the one to enable
    debug symbols, which is exactly when the function name contains
    "Unknown Function". *)
Theorem description_suggestion_agree (leak : Leak) :
  (String.prefix "Unknown function" (Description (leakIssue leak)) = true
   <-> Contains (Leak_FunctionName leak) "Unknown Function" = true)
  /\ (Suggestion (leakIssue leak) = debugSymbolsSuggestion
      <-> Contains (Leak_FunctionName leak) "Unknown Function" = true).
Proof.
  unfold leakIssue, formatLeakDescription, generateLeakSuggestion; simpl.
  destruct (Contains (Leak_FunctionName leak) "Unknown Function").
  - split; split; reflexivity.
  - split; split; try discriminate.
    destruct (Contains (Leak_FunctionName leak) "std::_Allocate"
              || Contains (Leak_FunctionName leak) "std::vector");
      [discriminate|].
    destruct (Contains (Leak_FunctionName leak) "main"); discriminate.
Qed.

(** X7. For a function name without the unknown-symbol marker, the
    container suggestion comes before the entry-point one: a name with
    "std::_Allocate" or "std::vector" gets the container suggestion
    even when it contains "main"; a name with "main" and neither of
    them gets the entry-point suggestion. *)
Theorem generateLeakSuggestion_container_first (leak : Leak) :
  Contains (Leak_FunctionName leak) "Unknown Function" = false ->
  ((Contains (Leak_FunctionName leak) "std::_Allocate" = true
    \/ Contains (Leak_FunctionName leak) "std::vector" = true) ->
   String.prefix "STL container leak detected."
     (generateLeakSuggestion leak) = true)
  /\ (Contains (Leak_FunctionName leak) "std::_Allocate" = false ->
      Contains (Leak_FunctionName leak) "std::vector" = false ->
      Contains (Leak_FunctionName leak) "main" = true ->
      String.prefix "Leak originated from main function."
        (generateLeakSuggestion leak) = true).
Proof.
  intros Hu. unfold generateLeakSuggestion. rewrite Hu. split.
  - intros [H|H]; rewrite H; [|rewrite orb_true_r]; reflexivity.
  - intros H1 H2 H3. rewrite H1, H2, H3. reflexivity.
Qed.

Lemma generateLeakSuggestion_container_first_witness :
  Contains (Leak_FunctionName vectorLeak) "main" = false
  /\ String.prefix "STL container leak detected."
       (generateLeakSuggestion vectorLeak) = true
  /\ String.prefix "STL container leak detected."
       (generateLeakSuggestion
          (mkLeak "main::std::vector<T>" "" 0 1 1 0%float "" false)) = true
  /\ String.prefix "Leak originated from main function."
       (generateLeakSuggestion mainLeak) = true.
Proof.
  split; [reflexivity|]. split; [|split].
  - apply (proj1 (generateLeakSuggestion_container_first vectorLeak
                    eq_refl)).
    right. reflexivity.
  - apply (proj1 (generateLeakSuggestion_container_first
                    (mkLeak "main::std::vector<T>" "" 0 1 1 0%float "" false)
                    eq_refl)).
    right. reflexivity.
  - apply (proj2 (generateLeakSuggestion_container_first mainLeak eq_refl));
      reflexivity.
Defined.

(** *** [strings.Contains] finds what is there *)

Lemma prefix_append (s rest : string) : String.prefix s (s ++ rest) = true.
Proof.
  induction s as [|c s IH]; simpl.
  - now destruct rest.
  - destruct (ascii_dec c c) as [_|N]; [exact IH | now elim N].
Qed.

Lemma Contains_unfold (s substr : string) :
  Contains s substr
  = if String.prefix substr s then true
    else match s with
         | EmptyString => false
         | String _ s' => Contains s' substr
         end.
Proof. destruct s; reflexivity. Qed.

Lemma Contains_here (s after : string) : Contains (s ++ after) s = true.
Proof. now rewrite Contains_unfold, prefix_append. Qed.

Lemma Contains_after (before rest s : string) :
  Contains rest s = true -> Contains (before ++ rest) s = true.
Proof.
  intros H. induction before as [|c before IH]; [exact H|].
  change (String c before ++ rest)%string with (String c (before ++ rest)).
  rewrite Contains_unfold, IH.
  now destruct (String.prefix s (String c (before ++ rest))).
Qed.

Ltac find_line :=
  repeat first [apply Contains_here | apply Contains_after].

Lemma suspectLoop_count (leaks : list Leak) (suspectLeaks : Z) :
  suspectLoop leaks suspectLeaks
  = suspectLeaks + Z.of_nat (length (filter Leak_IsSuspect leaks)).
Proof.
  revert suspectLeaks. induction leaks as [|leak rest IH]; intros n; simpl.
  - lia.
  - destruct (Leak_IsSuspect leak); rewrite IH; simpl length; lia.
Qed.

(** X8. [AnalyzeFragmentation] returns at most one issue; an issue it
    returns is High or Medium, of type MemoryFragmentation, names no
    function, file or line, and carries the total size, the total
    allocation count and the fragmentation of the document. *)
Theorem AnalyzeFragmentation_issue (d : MemProData) :
  (length (AnalyzeFragmentation (loaded d)) <= 1)%nat
  /\ forall issue,
       In issue (AnalyzeFragmentation (loaded d)) ->
       (Severity issue = "High" \/ Severity issue = "Medium")
       /\ Type_ issue = "MemoryFragmentation"
       /\ FunctionName issue = "" /\ FileName issue = ""
       /\ LineNumber issue = 0
       /\ Size issue = TotalSize d
       /\ Count issue = TotalAllocations d
       /\ Score issue = MemoryFragmentation d.
Proof.
  unfold AnalyzeFragmentation, loaded; cbv beta iota zeta delta [data].
  destruct (80.0 <? MemoryFragmentation d)%float;
    [|destruct (50.0 <? MemoryFragmentation d)%float]; simpl; split;
    try lia; intros issue H; destruct H as [<-|[]]; simpl; tauto.
Qed.

(** X9. The summary and the fragmentation analysis agree: when
    [AnalyzeFragmentation] returns a High issue, the summary contains
    the line of the severe fragmentation finding. *)
Theorem High_fragmentation_in_summary (d : MemProData) (issue : MemoryIssue) :
  In issue (AnalyzeFragmentation (loaded d)) ->
  Severity issue = "High" ->
  Contains (GetSummary (loaded d))
    ("- HIGH: Severe memory fragmentation detected" ++ nl) = true.
Proof.
  intros Hin Hsev.
  assert (F : (80 <? MemoryFragmentation d)%float = true).
  { revert Hin. unfold AnalyzeFragmentation, loaded;
      cbv beta iota zeta delta [data].
    destruct (80.0 <? MemoryFragmentation d)%float; [reflexivity|].
    destruct (50.0 <? MemoryFragmentation d)%float; simpl.
    - intros [<-|[]]. discriminate.
    - intros []. }
  rewrite GetSummary_unfold; cbv zeta.
  unfold summaryTail, summaryFindings. rewrite F.
  cbv iota. find_line.
Qed.

Lemma High_fragmentation_in_summary_witness :
  Contains (GetSummary (loaded sampleData))
    ("- HIGH: Severe memory fragmentation detected" ++ nl) = true.
Proof.
  apply (High_fragmentation_in_summary sampleData
           (hd (leakIssue emptyLeak) (AnalyzeFragmentation (loaded sampleData)))).
  - simpl. left. reflexivity.
  - reflexivity.
Defined.

(** X10. When some leak record has the suspect flag, the summary ends
    with the line that gives the number of the records that have it. *)
Theorem suspect_leaks_in_summary (d : MemProData) :
  (exists leak, In leak (Leaks d) /\ Leak_IsSuspect leak = true) ->
  exists before,
    GetSummary (loaded d)
    = (before ++ "- " ++
       fmt_d (Z.of_nat (length (filter Leak_IsSuspect (Leaks d)))) ++
       " suspect leak locations identified" ++ nl)%string.
Proof.
  intros [leak [Hin Hs]].
  assert (K : (0 < length (filter Leak_IsSuspect (Leaks d)))%nat).
  { assert (Hf : In leak (filter Leak_IsSuspect (Leaks d)))
      by (apply filter_In; now split).
    destruct (filter Leak_IsSuspect (Leaks d)); [destruct Hf | simpl; lia]. }
  rewrite GetSummary_unfold; cbv zeta.
  unfold summaryTail, summaryFindings.
  rewrite (suspectLoop_count (Leaks d) 0), Z.add_0_l.
  destruct (Z.gtb_spec (Z.of_nat (length (filter Leak_IsSuspect (Leaks d)))) 0);
    [|lia].
  match goal with
  | |- context [(50 <? ?pct)%float] =>
      exists (summaryHead d ++ "Leak Percentage: " ++ fmt_f 2 pct ++ "%" ++
              nl ++ "Memory Fragmentation: " ++
              fmt_f 2 (MemoryFragmentation d) ++ "%" ++ nl ++ nl ++
              "Critical Findings:" ++ nl ++
              (if (50 <? pct)%float
               then "- CRITICAL: Over 50% of allocated memory is leaked!" ++ nl
               else "") ++
              (if (80 <? MemoryFragmentation d)%float
               then "- HIGH: Severe memory fragmentation detected" ++ nl
               else ""))%string
  end.
  repeat rewrite append_assoc. reflexivity.
Qed.

Lemma suspect_leaks_in_summary_witness :
  exists before,
    GetSummary (loaded sampleData)
    = (before ++ "- " ++ "2" ++
       " suspect leak locations identified" ++ nl)%string.
Proof.
  apply (suspect_leaks_in_summary sampleData).
  exists mainLeak. split; [simpl; auto | reflexivity].
Defined.

(** X11. The leak percentage is guarded by a total size above zero, so
    a document with a total size of zero or less, whatever its leaked
    bytes, is reported at 0.00% and never gets the CRITICAL finding:
    after the heading of the findings come at most the fragmentation
    line and the suspect line. *)
Theorem GetSummary_nonpositive_total (d : MemProData) :
  TotalSize d <= 0 ->
  GetSummary (loaded d)
  = (summaryHead d ++ "Leak Percentage: 0.00%" ++ nl ++
     "Memory Fragmentation: " ++ fmt_f 2 (MemoryFragmentation d) ++ "%" ++
     nl ++ nl ++ "Critical Findings:" ++ nl ++
     (if (80 <? MemoryFragmentation d)%float
      then "- HIGH: Severe memory fragmentation detected" ++ nl
      else "") ++
     (if suspectLoop (Leaks d) 0 >? 0
      then "- " ++ fmt_d (suspectLoop (Leaks d) 0) ++
           " suspect leak locations identified" ++ nl
      else ""))%string.
Proof.
  intros H. rewrite GetSummary_unfold.
  destruct (Z.gtb_spec (TotalSize d) 0); [lia|].
  cbv zeta. rewrite fmt_f_zero. reflexivity.
Qed.

Lemma GetSummary_nonpositive_total_witness :
  GetSummary (loaded zeroTotal)
  = (summaryHead zeroTotal ++ "Leak Percentage: 0.00%" ++ nl ++
     "Memory Fragmentation: 10.00%" ++
     nl ++ nl ++ "Critical Findings:" ++ nl)%string.
Proof.
  rewrite (GetSummary_nonpositive_total zeroTotal); [reflexivity|].
  simpl. lia.
Defined.

Lemma StronglySorted_app_inv {A : Type} (R : A -> A -> Prop) (l1 l2 : list A) :
  StronglySorted R (l1 ++ l2) ->
  forall a b, In a l1 -> In b l2 -> R a b.
Proof.
  induction l1 as [|x l1 IH]; intros Hs a b Ha Hb; [destruct Ha|].
  simpl in Hs. apply StronglySorted_inv in Hs as [Hs Hx].
  destruct Ha as [<-|Ha].
  - rewrite Forall_forall in Hx. apply Hx, in_or_app. now right.
  - now apply IH.
Qed.

Lemma listed_le (n : Z) (len : nat) : (listed n len <= len)%nat.
Proof. unfold listed. lia. Qed.

Lemma GetTopLeakers_report (d : MemProData) (n : Z) :
  GetTopLeakers (loaded d) n
  = Ok (leakersHeader (Z.min n (Z.of_nat (length (Leaks d)))) ++
        joined
          (leakerEntries 0
             (firstn (listed n (length (Leaks d)))
                (Slice lessLeak (Leaks d)))))%string.
Proof.
  pose proof (Slice_length lessLeak (Leaks d)) as L.
  rewrite GetTopLeakers_unfold; cbv zeta. rewrite L.
  assert (E : (if n >? Z.of_nat (length (Leaks d))
               then Z.of_nat (length (Leaks d)) else n)
              = Z.min n (Z.of_nat (length (Leaks d)))).
  { destruct (Z.gtb_spec n (Z.of_nat (length (Leaks d)))); lia. }
  rewrite E. fold (listed n (length (Leaks d))).
  apply (leakersLoop_spec _ [] (Slice lessLeak (Leaks d))).
  rewrite L. apply listed_le.
Qed.

(** X12. [GetTopLeakers] never panics, whatever the count: for every
    document and every [n] it returns a report, whose header names [n]
    cut down to the number of leak records, and whose entries are those
    of the first [n] records (none for [n <= 0], all for [n] beyond
    their number) of the records put in descending order of leaked
    bytes, one entry for each, showing its place from 1 on, the
    function name and the leaked bytes of the record; every record it
    lists has at least as many leaked bytes as every record it leaves
    out. *)
Theorem GetTopLeakers_top (d : MemProData) (n : Z) :
  exists ranked,
    Permutation ranked (Leaks d)
    /\ StronglySorted size_desc ranked
    /\ GetTopLeakers (loaded d) n
       = Ok ("Top " ++ fmt_d (Z.min n (Z.of_nat (length (Leaks d)))) ++
             " Memory Leakers:" ++ nl ++ "====================" ++ nl ++ nl ++
             joined
               (reportEntries 1
                  (firstn (listed n (length (Leaks d))) ranked)))%string
    /\ length (reportEntries 1 (firstn (listed n (length (Leaks d))) ranked))
       = listed n (length (Leaks d))
    /\ all_shown 1 (firstn (listed n (length (Leaks d))) ranked)
         (reportEntries 1 (firstn (listed n (length (Leaks d))) ranked))
    /\ (forall a b,
          In a (firstn (listed n (length (Leaks d))) ranked) ->
          In b (skipn (listed n (length (Leaks d))) ranked) ->
          Leak_LeakSize a >= Leak_LeakSize b).
Proof.
  exists (Slice lessLeak (Leaks d)).
  pose proof (Slice_length lessLeak (Leaks d)) as L.
  pose proof (ranked_size_desc (Leaks d)) as S.
  pose proof (listed_le n (length (Leaks d))) as B.
  split; [apply Slice_perm|]. split; [exact S|].
  split; [|split; [|split]].
  - apply GetTopLeakers_text.
  - rewrite reportEntries_length, length_firstn. lia.
  - apply reportEntries_all_shown.
  - intros a b Ha Hb.
    rewrite <- (firstn_skipn (listed n (length (Leaks d)))
                  (Slice lessLeak (Leaks d))) in S.
    apply (StronglySorted_app_inv _ _ _ S a b Ha Hb).
Qed.

(** ** Properties of the server *)

Lemma NewMemoryAnalyzer_cases (w : World) (jsonPath : string) :
  (exists d, NewMemoryAnalyzer w jsonPath = (loaded d, None))
  \/ (exists err,
        NewMemoryAnalyzer w jsonPath = (None, Some err)
        /\ ((exists cause,
               ReadFile w jsonPath = inr cause
               /\ err = ("failed to read JSON file: " ++ cause)%string)
            \/ (exists content cause,
                  ReadFile w jsonPath = inl content
                  /\ Unmarshal w content = inr cause
                  /\ err = ("failed to parse JSON: " ++ cause)%string))).
Proof.
  unfold NewMemoryAnalyzer, loaded.
  destruct (ReadFile w jsonPath) as [content|cause] eqn:R.
  - destruct (Unmarshal w content) as [d|cause] eqn:U.
    + left. now exists d.
    + right. eexists. split; [reflexivity|]. right.
      now exists content, cause.
  - right. eexists. split; [reflexivity|]. left. now exists cause.
Qed.

Lemma GetSummary_not_error (d : MemProData) :
  GetSummary (loaded d) <> "Error: No data available for analysis".
Proof.
  rewrite GetSummary_unfold; cbv zeta. unfold summaryHead. discriminate.
Qed.

(** X13. The path of the document is never empty: it is the [json_path]
    argument when that is a string and not empty, else the value of
    MEMPRO_JSON_PATH when that is not empty, else the default path; an
    argument that is absent, empty, or not a string counts for
    nothing. *)
Theorem getJSONPath_resolution (w : World) (args : Args) :
  getJSONPath w args <> ""
  /\ (forall path,
        args "json_path" = Some (VString path) -> path <> "" ->
        getJSONPath w args = path)
  /\ ((forall path, args "json_path" = Some (VString path) -> path = "") ->
      (Getenv w "MEMPRO_JSON_PATH" <> "" ->
       getJSONPath w args = Getenv w "MEMPRO_JSON_PATH")
      /\ (Getenv w "MEMPRO_JSON_PATH" = "" ->
          getJSONPath w args = defaultJSONPath)).
Proof.
  unfold getJSONPath, assertString.
  destruct (String.eqb_spec (Getenv w "MEMPRO_JSON_PATH") "") as [Ee|Ee].
  - destruct (args "json_path") as [[| | |path| | |]|]; simpl;
      try (repeat split; try discriminate; try congruence; fail).
    destruct (String.eqb_spec path "") as [Ep|Ep]; simpl.
    + repeat split; try discriminate; congruence.
    + split; [assumption|]. split.
      * intros path' [= <-] _. reflexivity.
      * intros H. now elim Ep; apply H.
  - destruct (args "json_path") as [[| | |path| | |]|]; simpl;
      try (repeat split; try discriminate; try congruence; fail).
    destruct (String.eqb_spec path "") as [Ep|Ep]; simpl.
    + repeat split; try discriminate; congruence.
    + split; [assumption|]. split.
      * intros path' [= <-] _. reflexivity.
      * intros H. now elim Ep; apply H.
Qed.

Lemma getJSONPath_resolution_witness :
  getJSONPath sampleWorld (pathArgs "leaks.json") = "leaks.json"
  /\ getJSONPath sampleWorld (pathArgs "") = defaultJSONPath
  /\ getJSONPath sampleWorld noArgs = defaultJSONPath.
Proof.
  split; [|split].
  - apply (proj1 (proj2 (getJSONPath_resolution sampleWorld
                           (pathArgs "leaks.json"))));
      [reflexivity | discriminate].
  - apply (proj2 (proj2 (getJSONPath_resolution sampleWorld (pathArgs "")))).
    + intros path [= <-]. reflexivity.
    + reflexivity.
  - apply (proj2 (proj2 (getJSONPath_resolution sampleWorld noArgs))).
    + intros path [=].
    + reflexivity.
Defined.

(** *** The handlers at work *)

Example truncate_examples :
  truncate 2.5%float = Some 2
  /\ truncate (-2.5)%float = Some (-2)
  /\ truncate 0.5%float = Some 0
  /\ truncate 10%float = Some 10
  /\ truncate nan = None
  /\ truncate infinity = None
  /\ truncate 0x1p+63%float = None
  /\ truncate (-0x1p+63)%float = Some (- 2 ^ 63).
Proof. repeat split. Qed.

Example handleGetTopLeakers_fraction :
  handleGetTopLeakers sampleWorld (countArgs "leaks.json" (VNumber 1.5))
  = Ok (NewToolResultText
          ("Top 1 Memory Leakers:" ++ nl ++
           "====================" ++ nl ++
           nl ++
           "1. main" ++ nl ++
           "   Leak Size: 200000 bytes (195.31 KB)" ++ nl ++
           "   Leak Count: 2 allocations" ++ nl ++
           "   Leak Score: 9.25" ++ nl ++
           "   Suspect: true" ++ nl ++
           "   Location: main.cpp:7" ++ nl ++
           "   CallStack: main <- start" ++ nl ++
           nl),
        None).
Proof. reflexivity. Qed.

Example handleGetSummary_broken :
  handleGetSummary sampleWorld (pathArgs "broken.json")
  = (NewToolResultError
       "Failed to analyze: failed to parse JSON: unexpected end of JSON input",
     None).
Proof. reflexivity. Qed.

Example handleAnalyzeLeaks_sample :
  handleAnalyzeLeaks sampleWorld (pathArgs "leaks.json")
  = (NewToolResultText "3 issues", None).
Proof. reflexivity. Qed.

Example statsResource_sample :
  statsResource sampleWorld
  = Ok ([], Some ("failed to load analyzer: failed to read JSON file: open "
                  ++ defaultJSONPath ++ ": no such file")).
Proof. reflexivity. Qed.

Ltac load_cases w args :=
  let d := fresh "d" in
  let err := fresh "err" in
  let E := fresh "E" in
  destruct (NewMemoryAnalyzer_cases w (getJSONPath w args))
    as [[d E]|[err [E _]]].

(** X14. When the document cannot be loaded, every tool handler returns
    a result flagged as an error whose text is "Failed to analyze: "
    followed by the error of the load, which itself begins "failed to
    read JSON file: " or "failed to parse JSON: "; no analysis runs. *)
Theorem handlers_report_load_failure (w : World) (args : Args) (err : string) :
  snd (NewMemoryAnalyzer w (getJSONPath w args)) = Some err ->
  (String.prefix "failed to read JSON file: " err = true
   \/ String.prefix "failed to parse JSON: " err = true)
  /\ handleAnalyzeLeaks w args
     = (NewToolResultError ("Failed to analyze: " ++ err), None)
  /\ handleGetSummary w args
     = (NewToolResultError ("Failed to analyze: " ++ err), None)
  /\ handleGetTopLeakers w args
     = Ok (NewToolResultError ("Failed to analyze: " ++ err), None)
  /\ handleAnalyzeFragmentation w args
     = (NewToolResultError ("Failed to analyze: " ++ err), None)
  /\ handleFindLargeAllocations w args
     = (NewToolResultError ("Failed to analyze: " ++ err), None)
  /\ handleGetAllIssues w args
     = (NewToolResultError ("Failed to analyze: " ++ err), None).
Proof.
  intros H.
  unfold handleAnalyzeLeaks, handleGetSummary, handleGetTopLeakers,
    handleAnalyzeFragmentation, handleFindLargeAllocations,
    handleGetAllIssues; cbv zeta.
  destruct (NewMemoryAnalyzer_cases w (getJSONPath w args))
    as [[d E]|[err' [E C]]]; rewrite E in *; simpl in H; [discriminate|].
  injection H as ->. split; [|repeat split].
  destruct C as [[cause [_ ->]]|[content [cause [_ [_ ->]]]]];
    [left | right]; apply prefix_append.
Qed.

Lemma handlers_report_load_failure_witness :
  (String.prefix "failed to read JSON file: "
     "failed to read JSON file: open missing.json: no such file" = true
   \/ String.prefix "failed to parse JSON: "
        "failed to read JSON file: open missing.json: no such file" = true)
  /\ handleAnalyzeLeaks sampleWorld (pathArgs "missing.json")
     = (NewToolResultError
          "Failed to analyze: failed to read JSON file: open missing.json: no such file",
        None)
  /\ handleGetSummary sampleWorld (pathArgs "missing.json")
     = (NewToolResultError
          "Failed to analyze: failed to read JSON file: open missing.json: no such file",
        None)
  /\ handleGetTopLeakers sampleWorld (pathArgs "missing.json")
     = Ok (NewToolResultError
             "Failed to analyze: failed to read JSON file: open missing.json: no such file",
           None)
  /\ handleAnalyzeFragmentation sampleWorld (pathArgs "missing.json")
     = (NewToolResultError
          "Failed to analyze: failed to read JSON file: open missing.json: no such file",
        None)
  /\ handleFindLargeAllocations sampleWorld (pathArgs "missing.json")
     = (NewToolResultError
          "Failed to analyze: failed to read JSON file: open missing.json: no such file",
        None)
  /\ handleGetAllIssues sampleWorld (pathArgs "missing.json")
     = (NewToolResultError
          "Failed to analyze: failed to read JSON file: open missing.json: no such file",
        None).
Proof.
  apply (handlers_report_load_failure sampleWorld (pathArgs "missing.json")
           "failed to read JSON file: open missing.json: no such file").
  reflexivity.
Defined.

(** X15. No tool handler returns a Go error, and [handleGetTopLeakers]
    never panics, whatever the arguments, the file system, the decoder
    and the encoder do, and whatever the count is, a NaN or a number
    beyond every [int] included: a failure is always a result flagged
    as an error. *)
Theorem handlers_never_fail (w : World) (args : Args) :
  snd (handleAnalyzeLeaks w args) = None
  /\ snd (handleGetSummary w args) = None
  /\ (exists result, handleGetTopLeakers w args = Ok (result, None))
  /\ snd (handleAnalyzeFragmentation w args) = None
  /\ snd (handleFindLargeAllocations w args) = None
  /\ snd (handleGetAllIssues w args) = None.
Proof.
  unfold handleAnalyzeLeaks, handleGetSummary, handleGetTopLeakers,
    handleAnalyzeFragmentation, handleFindLargeAllocations,
    handleGetAllIssues, issuesResult; cbv zeta.
  load_cases w args; rewrite E.
  - rewrite GetTopLeakers_report.
    repeat split; try (eexists; reflexivity);
      match goal with
      | |- context [match ?m with inl _ => _ | inr _ => _ end] =>
          destruct m; reflexivity
      end.
  - repeat split. eexists. reflexivity.
Qed.

(** X16. The two report handlers flag an error exactly when the load
    fails, and what they return is never the text "Error: No data
    available for analysis": a loaded analyzer always has its data. *)
Theorem report_handlers_have_data (w : World) (args : Args) :
  (IsError (fst (handleGetSummary w args)) = true
   <-> exists err, snd (NewMemoryAnalyzer w (getJSONPath w args)) = Some err)
  /\ Text (fst (handleGetSummary w args))
     <> "Error: No data available for analysis"
  /\ forall result,
       handleGetTopLeakers w args = Ok result ->
       (IsError (fst result) = true
        <-> exists err,
              snd (NewMemoryAnalyzer w (getJSONPath w args)) = Some err)
       /\ Text (fst result) <> "Error: No data available for analysis".
Proof.
  unfold handleGetSummary, handleGetTopLeakers; cbv zeta.
  load_cases w args; rewrite E; cbv beta iota.
  - rewrite GetTopLeakers_report.
    unfold NewToolResultText; cbn [fst snd IsError Text].
    split; [|split].
    + split; [discriminate | intros [err H]; discriminate].
    + apply GetSummary_not_error.
    + intros result [= <-]. cbn [fst snd IsError Text]. split.
      * split; [discriminate | intros [err H]; discriminate].
      * unfold leakersHeader. discriminate.
  - unfold NewToolResultError; cbn [fst snd IsError Text].
    split; [|split].
    + split; [intros _; now exists err | reflexivity].
    + discriminate.
    + intros result [= <-]. cbn [fst snd IsError Text]. split.
      * split; [intros _; now exists err | reflexivity].
      * discriminate.
Qed.

Lemma leakersCount_default (w : World) (args : Args) :
  (forall f, args "count" <> Some (VNumber f)) -> leakersCount w args = 10.
Proof.
  intros H. unfold leakersCount, assertFloat64.
  destruct (args "count") as [[| |f| | | |]|]; try reflexivity.
  now elim (H f).
Qed.

(** X17. A count that is absent or is not a number (a string, say)
    leaves the default of 10: on a document that loads,
    [handleGetTopLeakers] then returns the report of the ten records
    with the most leaked bytes, or of all of them when there are fewer:
    a header naming that number, then one entry for each of these
    records, showing its place from 1 on, its function name and its
    leaked bytes; no record left out has more leaked bytes than a
    listed one. *)
Theorem handleGetTopLeakers_default_count (w : World) (args : Args)
    (d : MemProData) :
  (forall f, args "count" <> Some (VNumber f)) ->
  NewMemoryAnalyzer w (getJSONPath w args) = (loaded d, None) ->
  exists ranked,
    Permutation ranked (Leaks d)
    /\ StronglySorted size_desc ranked
    /\ handleGetTopLeakers w args
       = Ok (NewToolResultText
               ("Top " ++ fmt_d (Z.min 10 (Z.of_nat (length (Leaks d)))) ++
                " Memory Leakers:" ++ nl ++ "====================" ++ nl ++
                nl ++ joined (reportEntries 1 (firstn 10 ranked))),
             None)
    /\ length (reportEntries 1 (firstn 10 ranked))
       = Nat.min 10 (length (Leaks d))
    /\ all_shown 1 (firstn 10 ranked) (reportEntries 1 (firstn 10 ranked))
    /\ (forall a b,
          In a (firstn 10 ranked) -> In b (skipn 10 ranked) ->
          Leak_LeakSize a >= Leak_LeakSize b).
Proof.
  intros Hc Hl. exists (Slice lessLeak (Leaks d)).
  pose proof (Slice_length lessLeak (Leaks d)) as L.
  pose proof (ranked_size_desc (Leaks d)) as S.
  split; [apply Slice_perm|]. split; [exact S|].
  split; [|split; [|split]].
  - unfold handleGetTopLeakers; cbv zeta.
    rewrite Hl, (leakersCount_default w args Hc), GetTopLeakers_text.
    assert (F : firstn (Z.to_nat (Z.min 10 (Z.of_nat (length (Leaks d)))))
                  (Slice lessLeak (Leaks d))
                = firstn 10 (Slice lessLeak (Leaks d))).
    { destruct (Z.min_spec 10 (Z.of_nat (length (Leaks d))))
        as [[Hlt ->]|[Hge ->]]; [reflexivity|].
      rewrite Nat2Z.id, <- L, firstn_all. symmetry.
      apply firstn_all2. lia. }
    now rewrite F.
  - now rewrite reportEntries_length, length_firstn, L.
  - apply reportEntries_all_shown.
  - intros a b Ha Hb.
    rewrite <- (firstn_skipn 10 (Slice lessLeak (Leaks d))) in S.
    apply (StronglySorted_app_inv _ _ _ S a b Ha Hb).
Qed.

Lemma handleGetTopLeakers_default_count_witness :
  exists ranked,
    Permutation ranked (Leaks sampleData)
    /\ StronglySorted size_desc ranked
    /\ handleGetTopLeakers sampleWorld
         (countArgs "leaks.json" (VString "2"))
       = Ok (NewToolResultText
               ("Top " ++
                fmt_d (Z.min 10 (Z.of_nat (length (Leaks sampleData)))) ++
                " Memory Leakers:" ++ nl ++ "====================" ++ nl ++
                nl ++ joined (reportEntries 1 (firstn 10 ranked))),
             None)
    /\ length (reportEntries 1 (firstn 10 ranked))
       = Nat.min 10 (length (Leaks sampleData))
    /\ all_shown 1 (firstn 10 ranked) (reportEntries 1 (firstn 10 ranked))
    /\ (forall a b,
          In a (firstn 10 ranked) -> In b (skipn 10 ranked) ->
          Leak_LeakSize a >= Leak_LeakSize b).
Proof.
  apply (handleGetTopLeakers_default_count sampleWorld
           (countArgs "leaks.json" (VString "2")) sampleData).
  - intros f. discriminate.
  - reflexivity.
Defined.

(** X18. The statistics resource never panics, though it reads the data
    of the analyzer without a test for nil: when the load fails it
    returns no content and the error "failed to load analyzer: ..."; a
    result without an error is one text content, of URI mempro://stats
    and type application/json. It loads the default path whatever
    MEMPRO_JSON_PATH holds. *)
Theorem statsResource_safe (w : World) :
  (exists result, statsResource w = Ok result)
  /\ (forall err,
        snd (NewMemoryAnalyzer w defaultJSONPath) = Some err ->
        statsResource w = Ok ([], Some ("failed to load analyzer: " ++ err)))
  /\ (forall contents,
        statsResource w = Ok (contents, None) ->
        exists text,
          contents
          = [mkTextResourceContents "mempro://stats" "application/json" text])
  /\ (forall getenv,
        statsResource
          (mkWorld (ReadFile w) (Unmarshal w) getenv (MarshalIssues w)
             (MarshalAllIssues w) (MarshalStats w) (intOutOfRange w))
        = statsResource w).
Proof.
  split; [|split; [|split]].
  - unfold statsResource.
    destruct (NewMemoryAnalyzer_cases w defaultJSONPath)
      as [[d E]|[err [E _]]]; rewrite E; unfold loaded;
      cbv beta iota zeta delta [data].
    + match goal with
      | |- context [MarshalStats w ?stats] =>
          destruct (MarshalStats w stats)
      end; eexists; reflexivity.
    + eexists; reflexivity.
  - intros err H. unfold statsResource.
    destruct (NewMemoryAnalyzer w defaultJSONPath) as [a e]. simpl in H.
    now subst e.
  - intros contents. unfold statsResource.
    destruct (NewMemoryAnalyzer_cases w defaultJSONPath)
      as [[d E]|[err [E _]]]; rewrite E; unfold loaded;
      cbv beta iota zeta delta [data].
    + match goal with
      | |- context [MarshalStats w ?stats] =>
          destruct (MarshalStats w stats) as [text|err]
      end; intros [= <-]. now exists text.
    + discriminate.
  - intros getenv. reflexivity.
Qed.
